(** * Enrollment handling of the course service, and the GitLab adapter

    A shallow embedding of [web/courses.go] (the enrollment operations of
    [AutograderService]) and of the GitLab implementation of the SCM
    interface, followed by the properties proved about them.

    Conventions of the embedding.
    - [uint64] identifiers are [N]: the code compares them and passes them
      on, it never does arithmetic on them.  Go's [int] is [Z].
    - A pointer to a message that is a field of another message
      ([Enrollment.Course], [Enrollment.User]) is an [option]; the generated
      getters accept [nil] and a direct field access on [nil] panics.
      Requests handed to the service and the values an interface method
      returns together with a [nil] error are not [nil]; the helper
      [createRepoAndTeam] returns Go's triple of two pointers and an error,
      any of which may be [nil].
    - The store and the SCM are Go interfaces: they are records of methods
      over an abstract state.  A store query does not change the store.
    - [context.Context] arguments are left out: cancellation shows up as an
      error of the SCM method that was running. *)

From Stdlib Require Import List String NArith ZArith Bool Lia.
Import ListNotations.
Local Open Scope string_scope.
Local Open Scope list_scope.

(** ** Go errors and results *)

(** The dynamic type of an [error] value.  [errors_errorString] is what
    [fmt.Errorf] builds from a format without [%w]; [gitlab_ErrorResponse]
    is the error type of the GitLab client library; [context_Error] stands
    for a cancelled or expired context.
    Modelled from the spec: [NotFoundError], [ConflictError],
    [TransientError] and [InvalidTransitionError] are the error types of the
    specification's error design; no source file declares them. *)
Inductive errorType : Type :=
| errors_errorString
| gitlab_ErrorResponse (status : Z)
| context_Error
| NotFoundError
| ConflictError
| TransientError
| InvalidTransitionError.

(** An [error] interface value: its dynamic type and what [Error()] returns. *)
Record error : Type := mkError { dynamicType : errorType; Error : string }.

Definition fmt_Errorf (msg : string) : error :=
  {| dynamicType := errors_errorString; Error := msg |}.

(** The result pair [(T, error)] of an interface method. *)
Inductive Result (A : Type) : Type :=
| Ok (a : A)
| Err (err : error).
Arguments Ok {A} a.
Arguments Err {A} err.

Definition failed {A : Type} (r : Result A) : option error :=
  match r with
  | Ok _ => None
  | Err err => Some err
  end.

(** ** Package [pb]: the messages *)

Module pb.

(** [Enrollment_UserStatus] is an [int32] with named values; a value with
    no name is carried as [Enrollment_UserStatus_unnamed]. *)
Inductive Enrollment_UserStatus : Type :=
| Enrollment_NONE
| Enrollment_PENDING
| Enrollment_REJECTED
| Enrollment_STUDENT
| Enrollment_TEACHER
| Enrollment_UserStatus_unnamed (v : Z).

Inductive Repository_Type : Type :=
| Repository_NONE
| Repository_COURSEINFO
| Repository_USER
| Repository_GROUP
| Repository_Type_unnamed (v : Z).

Definition is_Repository_USER (t : Repository_Type) : bool :=
  match t with
  | Repository_USER => true
  | _ => false
  end.

Module User.
Record t : Type := mk { ID : N; Login : string }.
(** Getters accept a nil receiver. *)
Definition GetID (u : option t) : N :=
  match u with Some u => ID u | None => 0%N end.
Definition GetLogin (u : option t) : string :=
  match u with Some u => Login u | None => "" end.
End User.

Module Course.
Record t : Type := mk { ID : N; OrganizationID : N }.
Definition GetOrganizationID (c : option t) : N :=
  match c with Some c => OrganizationID c | None => 0%N end.
End Course.

Module Organization.
Record t : Type := mk { ID : N; Path : string }.
End Organization.

Module Enrollment.
Record t : Type := mk {
  CourseID : N;
  UserID : N;
  GroupID : N;
  Status : Enrollment_UserStatus;
  User : option User.t;
  Course : option Course.t
}.
Definition GetUserID (e : t) : N := UserID e.
Definition GetCourseID (e : t) : N := CourseID e.
Definition GetStatus (e : t) : Enrollment_UserStatus := Status e.
Definition GetUser (e : t) : option User.t := User e.
Definition GetCourse (e : t) : option Course.t := Course e.
End Enrollment.

Module Repository.
Record t : Type := mk {
  OrganizationID : N;
  RepositoryID : N;
  UserID : N;
  HTMLURL : string;
  RepoType : Repository_Type
}.
End Repository.

Module EnrollmentsRequest.
Record t : Type := mk {
  CourseID : N;
  States : list Enrollment_UserStatus;
  FilterOutGroupMembers : bool
}.
End EnrollmentsRequest.

Module RepositoryRequest.
Record t : Type := mk { CourseID : N; Type_ : Repository_Type }.
Definition GetCourseID (r : t) : N := CourseID r.
Definition GetType (r : t) : Repository_Type := Type_ r.
End RepositoryRequest.

Module Enrollments.
Record t : Type := mk { Enrollments : list Enrollment.t }.
End Enrollments.

Module URLResponse.
Record t : Type := mk { URL : string }.
End URLResponse.

End pb.

(** ** Package [scm]: the options and values of the SCM interface *)

Module scm.

Module Repository.
Record t : Type := mk { ID : N; WebURL : string }.
End Repository.

Module Team.
Record t : Type := mk { ID : N; Name : string }.
End Team.

Module TeamMembershipOptions.
Record t : Type := mk {
  Organization : pb.Organization.t;
  TeamSlug : string;
  TeamID : Z;
  Username : string;
  Role : string
}.
End TeamMembershipOptions.

Module OrgMembership.
Record t : Type := mk {
  Organization : pb.Organization.t;
  Username : string;
  Role : string
}.
End OrgMembership.

Module Directory.
Record t : Type := mk { ID : Z; Name : string }.
End Directory.

Module CreateDirectoryOptions.
Record t : Type := mk { Name : string }.
End CreateDirectoryOptions.

(** The methods of the [SCM] interface that [web/courses.go] calls, over
    the state [SC] of the provider. *)
Record SCM (SC : Type) : Type := {
  GetOrganization : SC -> N -> Result pb.Organization.t * SC;
  AddTeamMember : SC -> TeamMembershipOptions.t -> option error * SC;
  RemoveTeamMember : SC -> TeamMembershipOptions.t -> option error * SC;
  UpdateOrgMembership : SC -> OrgMembership.t -> option error * SC
}.
Arguments GetOrganization {SC} _ _ _.
Arguments AddTeamMember {SC} _ _ _.
Arguments RemoveTeamMember {SC} _ _ _.
Arguments UpdateOrgMembership {SC} _ _ _.

End scm.

(** ** The store interface

    The methods of the database interface that the enrollment operations
    call.  Queries read the store; commands return the updated store. *)
Record Database (DB : Type) : Type := {
  CreateEnrollment : DB -> pb.Enrollment.t -> option error * DB;
  GetEnrollmentByCourseAndUser : DB -> N -> N -> Result pb.Enrollment.t;
  RejectEnrollment : DB -> N -> N -> option error * DB;
  SetPendingEnrollment : DB -> N -> N -> option error * DB;
  EnrollStudent : DB -> N -> N -> option error * DB;
  EnrollTeacher : DB -> N -> N -> option error * DB;
  GetRepositories : DB -> pb.Repository.t -> Result (list pb.Repository.t);
  CreateRepository : DB -> pb.Repository.t -> option error * DB;
  GetCourse : DB -> N -> Result pb.Course.t;
  GetEnrollmentsByCourse :
    DB -> N -> list pb.Enrollment_UserStatus -> Result (list pb.Enrollment.t)
}.
Arguments CreateEnrollment {DB} _ _ _.
Arguments GetEnrollmentByCourseAndUser {DB} _ _ _ _.
Arguments RejectEnrollment {DB} _ _ _ _.
Arguments SetPendingEnrollment {DB} _ _ _ _.
Arguments EnrollStudent {DB} _ _ _ _.
Arguments EnrollTeacher {DB} _ _ _ _.
Arguments GetRepositories {DB} _ _ _.
Arguments CreateRepository {DB} _ _ _.
Arguments GetCourse {DB} _ _ _.
Arguments GetEnrollmentsByCourse {DB} _ _ _ _.

(** ** Observable calls

    Every call on the store or on the SCM is recorded with its arguments and
    with the error it returned, in the order the calls are made. *)
Inductive Call : Type :=
| DB_CreateEnrollment (e : pb.Enrollment.t)
| DB_GetEnrollmentByCourseAndUser (cid uid : N)
| DB_RejectEnrollment (uid cid : N)
| DB_SetPendingEnrollment (uid cid : N)
| DB_EnrollStudent (uid cid : N)
| DB_EnrollTeacher (uid cid : N)
| DB_GetRepositories (query : pb.Repository.t)
| DB_CreateRepository (repo : pb.Repository.t)
| DB_GetCourse (id : N)
| DB_GetEnrollmentsByCourse (cid : N) (states : list pb.Enrollment_UserStatus)
| SCM_GetOrganization (id : N)
| SCM_AddTeamMember (opt : scm.TeamMembershipOptions.t)
| SCM_RemoveTeamMember (opt : scm.TeamMembershipOptions.t)
| SCM_UpdateOrgMembership (opt : scm.OrgMembership.t)
| SCM_createRepoAndTeam (course : pb.Course.t) (path teamName : string)
                        (userNames : list string).

Record Event : Type := mkEvent { call : Call; failure : option error }.

Definition is_scm_call (c : Call) : bool :=
  match c with
  | SCM_GetOrganization _ | SCM_AddTeamMember _ | SCM_RemoveTeamMember _
  | SCM_UpdateOrgMembership _ | SCM_createRepoAndTeam _ _ _ _ => true
  | _ => false
  end.

Definition is_store_write (c : Call) : bool :=
  match c with
  | DB_CreateEnrollment _ | DB_RejectEnrollment _ _
  | DB_SetPendingEnrollment _ _ | DB_EnrollStudent _ _ | DB_EnrollTeacher _ _
  | DB_CreateRepository _ => true
  | _ => false
  end.

(** What the two loggers receive: [s.logger.Errorf] gets a format with its
    arguments, [log.Println] gets its operands. *)
Inductive LogEntry : Type :=
| logger_Errorf (format : string) (args : list string)
| log_Println (operands : list string).

(** ** The service: state, panics and the recorded effects *)

(** A Go function either returns or panics (nil dereference, index out of
    range). *)
Inductive Outcome (A : Type) : Type :=
| Returns (a : A)
| Panics.
Arguments Returns {A} a.
Arguments Panics {A}.

Section Service.

Context {DB SC : Type}.

(** [s.db] and the [sc] argument. *)
Variable store : Database DB.
Variable adapter : scm.SCM SC.

(** Helpers of the same code base that are declared in other files:
    [createRepoAndTeam] (package [web]) works on the SCM only and returns
    the triple [(repo, team, err)] of two pointers and an error, any of
    which may be nil;
    [pb.StudentRepoName] names a student's repository after the login;
    [Sprintf_found] is [fmt.Sprintf] at the format of [getRepositoryURL]. *)
Variable createRepoAndTeam :
  SC -> pb.Course.t -> string -> string -> list string ->
  (option scm.Repository.t * option scm.Team.t * option error) * SC.
Variable StudentRepoName : string -> string.
Variable Sprintf_found : nat -> pb.Repository.t -> string.

Record World : Type := mkWorld {
  db : DB;
  sc : SC;
  calls : list Event;
  logs : list LogEntry
}.

(** A world in which nothing has been called or logged yet. *)
Definition start (d : DB) (s : SC) : World :=
  {| db := d; sc := s; calls := []; logs := [] |}.

Definition M (A : Type) : Type := World -> Outcome A * World.

Definition ret {A : Type} (a : A) : M A := fun w => (Returns a, w).

Definition bind {A B : Type} (m : M A) (k : A -> M B) : M B :=
  fun w =>
    match m w with
    | (Returns a, w') => k a w'
    | (Panics, w') => (Panics, w')
    end.

Notation "x <- m ;; k" := (bind m (fun x => k))
  (at level 61, m at next level, right associativity).
Notation "m ;;; k" := (bind m (fun _ => k))
  (at level 61, right associativity).

Definition panic {A : Type} : M A := fun w => (Panics, w).

(** [p.Field] on a pointer [p]. *)
Definition deref {A : Type} (p : option A) : M A :=
  match p with
  | Some a => ret a
  | None => panic
  end.

(** [l[i]] on a slice [l]. *)
Definition index {A : Type} (l : list A) (i : nat) : M A :=
  match nth_error l i with
  | Some a => ret a
  | None => panic
  end.

Definition record (c : Call) (f : option error) (w : World) : World :=
  {| db := db w; sc := sc w;
     calls := calls w ++ [ {| call := c; failure := f |} ];
     logs := logs w |}.

Definition log (l : LogEntry) : M unit :=
  fun w =>
    (Returns tt,
     {| db := db w; sc := sc w; calls := calls w; logs := logs w ++ [l] |}).

(** A store query, a store command and an SCM call, each recorded. *)
Definition query {A : Type} (c : Call) (f : DB -> Result A) : M (Result A) :=
  fun w => let r := f (db w) in (Returns r, record c (failed r) w).

Definition command (c : Call) (f : DB -> option error * DB)
  : M (option error) :=
  fun w =>
    let (err, d) := f (db w) in
    (Returns err,
     record c err {| db := d; sc := sc w; calls := calls w; logs := logs w |}).

Definition scmCall {A : Type} (c : Call) (err_of : A -> option error)
    (f : SC -> A * SC) : M A :=
  fun w =>
    let (r, s) := f (sc w) in
    (Returns r,
     record c (err_of r)
       {| db := db w; sc := s; calls := calls w; logs := logs w |}).

Definition db_CreateEnrollment (e : pb.Enrollment.t) : M (option error) :=
  command (DB_CreateEnrollment e) (fun d => CreateEnrollment store d e).
Definition db_GetEnrollmentByCourseAndUser (cid uid : N)
  : M (Result pb.Enrollment.t) :=
  query (DB_GetEnrollmentByCourseAndUser cid uid)
        (fun d => GetEnrollmentByCourseAndUser store d cid uid).
Definition db_RejectEnrollment (uid cid : N) : M (option error) :=
  command (DB_RejectEnrollment uid cid)
          (fun d => RejectEnrollment store d uid cid).
Definition db_SetPendingEnrollment (uid cid : N) : M (option error) :=
  command (DB_SetPendingEnrollment uid cid)
          (fun d => SetPendingEnrollment store d uid cid).
Definition db_EnrollStudent (uid cid : N) : M (option error) :=
  command (DB_EnrollStudent uid cid) (fun d => EnrollStudent store d uid cid).
Definition db_EnrollTeacher (uid cid : N) : M (option error) :=
  command (DB_EnrollTeacher uid cid) (fun d => EnrollTeacher store d uid cid).
Definition db_GetRepositories (q : pb.Repository.t)
  : M (Result (list pb.Repository.t)) :=
  query (DB_GetRepositories q) (fun d => GetRepositories store d q).
Definition db_CreateRepository (r : pb.Repository.t) : M (option error) :=
  command (DB_CreateRepository r) (fun d => CreateRepository store d r).
Definition db_GetCourse (id : N) : M (Result pb.Course.t) :=
  query (DB_GetCourse id) (fun d => GetCourse store d id).
Definition db_GetEnrollmentsByCourse (cid : N)
    (states : list pb.Enrollment_UserStatus)
  : M (Result (list pb.Enrollment.t)) :=
  query (DB_GetEnrollmentsByCourse cid states)
        (fun d => GetEnrollmentsByCourse store d cid states).

Definition sc_GetOrganization (id : N) : M (Result pb.Organization.t) :=
  scmCall (SCM_GetOrganization id) failed
          (fun s => scm.GetOrganization adapter s id).
Definition sc_AddTeamMember (opt : scm.TeamMembershipOptions.t)
  : M (option error) :=
  scmCall (SCM_AddTeamMember opt) (fun e => e)
          (fun s => scm.AddTeamMember adapter s opt).
Definition sc_RemoveTeamMember (opt : scm.TeamMembershipOptions.t)
  : M (option error) :=
  scmCall (SCM_RemoveTeamMember opt) (fun e => e)
          (fun s => scm.RemoveTeamMember adapter s opt).
Definition sc_UpdateOrgMembership (opt : scm.OrgMembership.t)
  : M (option error) :=
  scmCall (SCM_UpdateOrgMembership opt) (fun e => e)
          (fun s => scm.UpdateOrgMembership adapter s opt).
Definition sc_createRepoAndTeam (course : pb.Course.t)
    (path teamName : string) (userNames : list string)
  : M (option scm.Repository.t * option scm.Team.t * option error) :=
  scmCall (SCM_createRepoAndTeam course path teamName userNames) snd
          (fun s => createRepoAndTeam s course path teamName userNames).

(** ** [web/courses.go] *)

(** [createEnrollment] enrolls a user in a course. *)
Definition createEnrollment (request : pb.Enrollment.t) : M (option error) :=
  let enrollment :=
    {| pb.Enrollment.CourseID := pb.Enrollment.GetCourseID request;
       pb.Enrollment.UserID := pb.Enrollment.GetUserID request;
       pb.Enrollment.GroupID := 0%N;
       pb.Enrollment.Status := pb.Enrollment_PENDING;
       pb.Enrollment.User := None;
       pb.Enrollment.Course := None |} in
  db_CreateEnrollment enrollment.

(** [updateReposAndTeams] returns the pair [(repo, err)]; the teacher
    branch returns a nil repository also when it succeeds. *)
Definition updateReposAndTeams (course : option pb.Course.t) (login : string)
    (state : pb.Enrollment_UserStatus)
  : M (option scm.Repository.t * option error) :=
  c <- deref course ;;
  r <- sc_GetOrganization (pb.Course.OrganizationID c) ;;
  match r with
  | Err err => ret (None, Some err)
  | Ok org =>
    let teamOpt :=
      {| scm.TeamMembershipOptions.Organization := org;
         scm.TeamMembershipOptions.TeamSlug := "students";
         scm.TeamMembershipOptions.TeamID := 0%Z;
         scm.TeamMembershipOptions.Username := login;
         scm.TeamMembershipOptions.Role := "" |} in
    match state with
    | pb.Enrollment_STUDENT =>
      e <- sc_AddTeamMember teamOpt ;;
      match e with
      | Some err => ret (None, Some err)
      | None =>
        r <- sc_createRepoAndTeam c (StudentRepoName login) login [login] ;;
        let '(repo, _, err) := r in
        match err with
        | Some err => ret (None, Some err)
        | None => ret (repo, None)
        end
      end
    | pb.Enrollment_TEACHER =>
      let orgUpdate :=
        {| scm.OrgMembership.Organization := org;
           scm.OrgMembership.Username := login;
           scm.OrgMembership.Role := "admin" |} in
      e <- sc_UpdateOrgMembership orgUpdate ;;
      match e with
      | Some err =>
        log (log_Println
               ["UpdateRepoAndTeam: failed to update org membership: ";
                Error err]) ;;;
        ret (None, Some err)
      | None =>
        e <- sc_RemoveTeamMember teamOpt ;;
        match e with
        | Some err =>
          log (log_Println
                 ["UpdateRepoAndTeam: failed to remove team member: ";
                  Error err]) ;;;
          ret (None, Some err)
        | None =>
          let teamOpt :=
            {| scm.TeamMembershipOptions.Organization := org;
               scm.TeamMembershipOptions.TeamSlug := "teachers";
               scm.TeamMembershipOptions.TeamID := 0%Z;
               scm.TeamMembershipOptions.Username := login;
               scm.TeamMembershipOptions.Role := "maintainer" |} in
          e <- sc_AddTeamMember teamOpt ;;
          ret (None, e)
        end
      end
    | _ => ret (None, Some (fmt_Errorf "unknown enrollment"))
    end
  end.

(** [updateEnrollment] accepts or rejects a user to enroll in a course. *)
Definition updateEnrollment (request : pb.Enrollment.t) : M (option error) :=
  r <- db_GetEnrollmentByCourseAndUser (pb.Enrollment.CourseID request)
                                       (pb.Enrollment.UserID request) ;;
  match r with
  | Err err => ret (Some err)
  | Ok enrollment =>
    match pb.Enrollment.Status request with
    | pb.Enrollment_REJECTED =>
      db_RejectEnrollment (pb.Enrollment.UserID request)
                          (pb.Enrollment.CourseID request)
    | pb.Enrollment_PENDING =>
      db_SetPendingEnrollment (pb.Enrollment.UserID request)
                              (pb.Enrollment.CourseID request)
    | pb.Enrollment_STUDENT =>
      let course := pb.Enrollment.GetCourse enrollment in
      let student := pb.Enrollment.GetUser enrollment in
      let userRepoQuery :=
        {| pb.Repository.OrganizationID := pb.Course.GetOrganizationID course;
           pb.Repository.RepositoryID := 0%N;
           pb.Repository.UserID := pb.Enrollment.GetUserID request;
           pb.Repository.HTMLURL := "";
           pb.Repository.RepoType := pb.Repository_USER |} in
      r <- db_GetRepositories userRepoQuery ;;
      match r with
      | Err err => ret (Some err)
      | Ok repos =>
        if (0 <? List.length repos)%nat then
          db_EnrollStudent (pb.Enrollment.UserID request)
                           (pb.Enrollment.CourseID request)
        else
          p <- updateReposAndTeams course (pb.User.GetLogin student)
                                   (pb.Enrollment.GetStatus request) ;;
          match snd p with
          | Some err =>
            s <- deref student ;;
            log (logger_Errorf
                   "UpdateEnrollment: failed to update repos or team membersip for student %s: %s"
                   [pb.User.Login s; Error err]) ;;;
            ret (Some err)
          | None =>
            repo <- deref (fst p) ;;
            let dbRepo :=
              {| pb.Repository.OrganizationID :=
                   pb.Course.GetOrganizationID course;
                 pb.Repository.RepositoryID := scm.Repository.ID repo;
                 pb.Repository.UserID := pb.Enrollment.GetUserID request;
                 pb.Repository.HTMLURL := scm.Repository.WebURL repo;
                 pb.Repository.RepoType := pb.Repository_USER |} in
            e <- db_CreateRepository dbRepo ;;
            match e with
            | Some err => ret (Some err)
            | None =>
              db_EnrollStudent (pb.Enrollment.UserID request)
                               (pb.Enrollment.CourseID request)
            end
          end
      end
    | pb.Enrollment_TEACHER =>
      let course := pb.Enrollment.GetCourse enrollment in
      let teacher := pb.Enrollment.GetUser enrollment in
      p <- updateReposAndTeams course (pb.User.GetLogin teacher)
                               (pb.Enrollment.GetStatus request) ;;
      match snd p with
      | Some err =>
        t <- deref teacher ;;
        log (logger_Errorf
               "UpdateEnrollment: failed to update team membersip for teacher %s: %s"
               [pb.User.Login t; Error err]) ;;;
        ret (Some err)
      | None =>
        t <- deref teacher ;;
        c <- deref course ;;
        db_EnrollTeacher (pb.User.ID t) (pb.Course.ID c)
      end
    | _ => ret (Some (fmt_Errorf "unknown enrollment"))
    end
  end.

(** The loop of [getEnrollmentsByCourse]: the enrollments that belong to
    no group are appended, one by one, to an empty slice. *)
Definition enrollmentsWithoutGroups (enrollments : list pb.Enrollment.t)
  : list pb.Enrollment.t :=
  fold_left
    (fun acc enrollment =>
       if (pb.Enrollment.GroupID enrollment =? 0)%N
       then acc ++ [enrollment]
       else acc)
    enrollments [].

(** [getEnrollmentsByCourse] gets all enrollments for a course that match
    the given enrollment request. *)
Definition getEnrollmentsByCourse (request : pb.EnrollmentsRequest.t)
  : M (Result pb.Enrollments.t) :=
  r <- db_GetEnrollmentsByCourse (pb.EnrollmentsRequest.CourseID request)
                                 (pb.EnrollmentsRequest.States request) ;;
  match r with
  | Err err => ret (Err err)
  | Ok enrollments =>
    let enrollments :=
      if pb.EnrollmentsRequest.FilterOutGroupMembers request
      then enrollmentsWithoutGroups enrollments
      else enrollments in
    ret (Ok {| pb.Enrollments.Enrollments := enrollments |})
  end.

(** [getRepositoryURL] returns the repository information. *)
Definition getRepositoryURL (currentUser : option pb.User.t)
    (request : pb.RepositoryRequest.t) : M (Result pb.URLResponse.t) :=
  r <- db_GetCourse (pb.RepositoryRequest.GetCourseID request) ;;
  match r with
  | Err err => ret (Err err)
  | Ok course =>
    let userRepoQuery :=
      {| pb.Repository.OrganizationID := pb.Course.OrganizationID course;
         pb.Repository.RepositoryID := 0%N;
         pb.Repository.UserID :=
           if pb.is_Repository_USER (pb.RepositoryRequest.Type_ request)
           then pb.User.GetID currentUser
           else 0%N;
         pb.Repository.HTMLURL := "";
         pb.Repository.RepoType := pb.RepositoryRequest.GetType request |} in
    r <- db_GetRepositories userRepoQuery ;;
    match r with
    | Err err => ret (Err err)
    | Ok repos =>
      if negb (List.length repos =? 1)%nat then
        ret (Err (fmt_Errorf (Sprintf_found (List.length repos) userRepoQuery)))
      else
        repo <- index repos 0 ;;
        ret (Ok {| pb.URLResponse.URL := pb.Repository.HTMLURL repo |})
    end
  end.

End Service.

(** ** The GitLab implementation of the SCM interface *)

Module gitlab.

Module Group.
Record t : Type := mk { ID : Z; Name : string }.
End Group.

Inductive VisibilityLevelValue : Type :=
| PrivateVisibility
| PublicVisibility.

Module CreateGroupOptions.
Record t : Type := mk {
  Name : option string;
  Path : option string;
  VisibilityLevel : option VisibilityLevelValue
}.
End CreateGroupOptions.

(** [client.Groups], over the state [C] of the GitLab server. *)
Record GroupsService (C : Type) : Type := {
  ListGroups : C -> Result (list Group.t) * C;
  CreateGroup : C -> CreateGroupOptions.t -> Result Group.t * C;
  GetGroup : C -> Z -> Result Group.t * C
}.
Arguments ListGroups {C} _ _.
Arguments CreateGroup {C} _ _ _.
Arguments GetGroup {C} _ _ _.

End gitlab.

Section GitlabSCM.

Context {C : Type}.
Variable client : gitlab.GroupsService C.

Definition getVisibilityLevel (private : bool)
  : option gitlab.VisibilityLevelValue :=
  if private then Some gitlab.PrivateVisibility
  else Some gitlab.PublicVisibility.

(** [ListDirectories] implements the SCM interface. *)
Definition ListDirectories (c : C) : Result (list scm.Directory.t) * C :=
  let (r, c') := gitlab.ListGroups client c in
  match r with
  | Err err => (Err err, c')
  | Ok groups =>
    (Ok (fold_left
           (fun directories group =>
              directories ++
              [ {| scm.Directory.ID := gitlab.Group.ID group;
                   scm.Directory.Name := gitlab.Group.Name group |} ])
           groups []),
     c')
  end.

(** [CreateDirectory] implements the SCM interface. *)
Definition CreateDirectory (c : C) (opt : scm.CreateDirectoryOptions.t)
  : Result scm.Directory.t * C :=
  let (r, c') :=
    gitlab.CreateGroup client c
      {| gitlab.CreateGroupOptions.Name :=
           Some (scm.CreateDirectoryOptions.Name opt);
         gitlab.CreateGroupOptions.Path :=
           Some (scm.CreateDirectoryOptions.Name opt);
         gitlab.CreateGroupOptions.VisibilityLevel :=
           getVisibilityLevel false |} in
  match r with
  | Err err => (Err err, c')
  | Ok group =>
    (Ok {| scm.Directory.ID := gitlab.Group.ID group;
           scm.Directory.Name := gitlab.Group.Name group |},
     c')
  end.

(** [GetDirectory] implements the SCM interface. *)
Definition GetDirectory (c : C) (id : Z) : Result scm.Directory.t * C :=
  let (r, c') := gitlab.GetGroup client c id in
  match r with
  | Err err => (Err err, c')
  | Ok group =>
    (Ok {| scm.Directory.ID := gitlab.Group.ID group;
           scm.Directory.Name := gitlab.Group.Name group |},
     c')
  end.

End GitlabSCM.

(** ** Properties of traces and of errors *)

(** Every SCM call of the trace comes before every store write: once the
    store has been written, no SCM call follows. *)
Fixpoint scm_before_store_writes (tr : list Event) : Prop :=
  match tr with
  | [] => True
  | ev :: tr' =>
    (is_store_write (call ev) = true ->
     Forall (fun ev' => is_scm_call (call ev') = false) tr') /\
    scm_before_store_writes tr'
  end.


(** The dynamic type of the error is one of the types of the shared taxonomy
    that an SCM adapter is to return. *)
Definition in_shared_taxonomy (err : error) : bool :=
  match dynamicType err with
  | NotFoundError | ConflictError | TransientError => true
  | _ => false
  end.

(** The error is a value of the provider client's own error type. *)
Definition is_provider_error (err : error) : bool :=
  match dynamicType err with
  | gitlab_ErrorResponse _ => true
  | _ => false
  end.

(** ** Test doubles

    An in-memory store and a scripted SCM, used to run the service on
    concrete inputs. *)

Module double.

Record Store : Type := mkStore {
  enrollments : list pb.Enrollment.t;
  repositories : list pb.Repository.t;
  courses : list pb.Course.t
}.

Definition Repository_Type_eqb (a b : pb.Repository_Type) : bool :=
  match a, b with
  | pb.Repository_NONE, pb.Repository_NONE => true
  | pb.Repository_COURSEINFO, pb.Repository_COURSEINFO => true
  | pb.Repository_USER, pb.Repository_USER => true
  | pb.Repository_GROUP, pb.Repository_GROUP => true
  | pb.Repository_Type_unnamed v, pb.Repository_Type_unnamed v' => (v =? v')%Z
  | _, _ => false
  end.

Definition same_enrollment (uid cid : N) (e : pb.Enrollment.t) : bool :=
  (pb.Enrollment.UserID e =? uid)%N && (pb.Enrollment.CourseID e =? cid)%N.

Definition setStatus (st : pb.Enrollment_UserStatus) (d : Store)
    (uid cid : N) : option error * Store :=
  (None,
   {| enrollments :=
        map (fun e =>
               if same_enrollment uid cid e
               then {| pb.Enrollment.CourseID := pb.Enrollment.CourseID e;
                       pb.Enrollment.UserID := pb.Enrollment.UserID e;
                       pb.Enrollment.GroupID := pb.Enrollment.GroupID e;
                       pb.Enrollment.Status := st;
                       pb.Enrollment.User := pb.Enrollment.User e;
                       pb.Enrollment.Course := pb.Enrollment.Course e |}
               else e)
            (enrollments d);
      repositories := repositories d;
      courses := courses d |}).

(** A zero field of the query matches every row. *)
Definition matches (q r : pb.Repository.t) : bool :=
  (pb.Repository.OrganizationID r =? pb.Repository.OrganizationID q)%N
  && Repository_Type_eqb (pb.Repository.RepoType r) (pb.Repository.RepoType q)
  && ((pb.Repository.UserID q =? 0)%N
      || (pb.Repository.UserID r =? pb.Repository.UserID q)%N).

Definition notFound : error := fmt_Errorf "record not found".

Definition store : Database Store := {|
  CreateEnrollment d e :=
    (None, {| enrollments := enrollments d ++ [e];
              repositories := repositories d;
              courses := courses d |});
  GetEnrollmentByCourseAndUser d cid uid :=
    match find (same_enrollment uid cid) (enrollments d) with
    | Some e => Ok e
    | None => Err notFound
    end;
  RejectEnrollment := setStatus pb.Enrollment_REJECTED;
  SetPendingEnrollment := setStatus pb.Enrollment_PENDING;
  EnrollStudent := setStatus pb.Enrollment_STUDENT;
  EnrollTeacher := setStatus pb.Enrollment_TEACHER;
  GetRepositories d q := Ok (filter (matches q) (repositories d));
  CreateRepository d r :=
    (None, {| enrollments := enrollments d;
              repositories := repositories d ++ [r];
              courses := courses d |});
  GetCourse d id :=
    match find (fun c => (pb.Course.ID c =? id)%N) (courses d) with
    | Some c => Ok c
    | None => Err notFound
    end;
  GetEnrollmentsByCourse d cid _ :=
    Ok (filter (fun e => (pb.Enrollment.CourseID e =? cid)%N) (enrollments d))
|}.

(** The scripted SCM keeps a journal of the operations it performed;
    [fails] tells which operation fails, and with which error. *)
Definition SCMState : Type := list string.

Definition perform (fails : string -> option error) (op : string)
    (s : SCMState) : option error * SCMState :=
  match fails op with
  | Some err => (Some err, s)
  | None => (None, s ++ [op])
  end.

Definition adapter (fails : string -> option error) : scm.SCM SCMState := {|
  scm.GetOrganization s id :=
    match fails "GetOrganization" with
    | Some err => (Err err, s)
    | None => (Ok {| pb.Organization.ID := id;
                     pb.Organization.Path := "course-org" |}, s)
    end;
  scm.AddTeamMember s opt := perform fails "AddTeamMember" s;
  scm.RemoveTeamMember s opt := perform fails "RemoveTeamMember" s;
  scm.UpdateOrgMembership s opt := perform fails "UpdateOrgMembership" s
|}.

Definition createRepoAndTeam (fails : string -> option error)
    (s : SCMState) (course : pb.Course.t) (path teamName : string)
    (userNames : list string)
  : (option scm.Repository.t * option scm.Team.t * option error) * SCMState :=
  match fails "createRepoAndTeam" with
  | Some err => ((None, None, Some err), s)
  | None =>
    ((Some {| scm.Repository.ID := 501%N;
              scm.Repository.WebURL :=
                ("https://scm.example/" ++ path)%string |},
      Some {| scm.Team.ID := 601%N; scm.Team.Name := teamName |},
      None),
     s ++ ["createRepoAndTeam"])
  end.

Definition StudentRepoName (login : string) : string :=
  (login ++ "-labs")%string.

Definition Sprintf_found (n : nat) (q : pb.Repository.t) : string :=
  "found a number of repositories other than one".

Definition noFailure : string -> option error := fun _ => None.

Definition failing (op : string) (err : error) : string -> option error :=
  fun op' => if String.eqb op' op then Some err else None.

(** The raw error of the provider for a missing organization. *)
Definition http404 : error :=
  {| dynamicType := gitlab_ErrorResponse 404; Error := "404 Not Found" |}.

Definition alice : pb.User.t := {| pb.User.ID := 42; pb.User.Login := "alice" |}.

Definition course7 : pb.Course.t :=
  {| pb.Course.ID := 7; pb.Course.OrganizationID := 100 |}.

Definition enrolled (st : pb.Enrollment_UserStatus) (group : N)
  : pb.Enrollment.t :=
  {| pb.Enrollment.CourseID := 7;
     pb.Enrollment.UserID := 42;
     pb.Enrollment.GroupID := group;
     pb.Enrollment.Status := st;
     pb.Enrollment.User := Some alice;
     pb.Enrollment.Course := Some course7 |}.

(** What a client sends: the identifiers and the requested status. *)
Definition request (st : pb.Enrollment_UserStatus) : pb.Enrollment.t :=
  {| pb.Enrollment.CourseID := 7;
     pb.Enrollment.UserID := 42;
     pb.Enrollment.GroupID := 0;
     pb.Enrollment.Status := st;
     pb.Enrollment.User := None;
     pb.Enrollment.Course := None |}.

Definition aliceRepo : pb.Repository.t :=
  {| pb.Repository.OrganizationID := 100;
     pb.Repository.RepositoryID := 500;
     pb.Repository.UserID := 42;
     pb.Repository.HTMLURL := "https://scm.example/alice-labs";
     pb.Repository.RepoType := pb.Repository_USER |}.

(** Alice's enrollment is pending and she has no repository. *)
Definition pendingStore : Store :=
  {| enrollments := [enrolled pb.Enrollment_PENDING 0];
     repositories := [];
     courses := [course7] |}.

(** Alice was a student and then rejected: her repository exists. *)
Definition rejectedStore : Store :=
  {| enrollments := [enrolled pb.Enrollment_REJECTED 0];
     repositories := [aliceRepo];
     courses := [course7] |}.

(** [updateEnrollment] against the doubles. *)
Definition run (fails : string -> option error)
    (st : pb.Enrollment_UserStatus) (d : Store)
  : Outcome (option error) * World :=
  updateEnrollment store (adapter fails) (createRepoAndTeam fails)
    StudentRepoName (request st) (start d []).

(** A GitLab server that knows no group. *)
Definition emptyGitlab : gitlab.GroupsService unit := {|
  gitlab.ListGroups c := (Ok [], c);
  gitlab.CreateGroup c opt := (Err http404, c);
  gitlab.GetGroup c id := (Err http404, c)
|}.

(** The organization the scripted SCM resolves for course 7, and alice's
    membership of its "students" team. *)
Definition org100 : pb.Organization.t :=
  {| pb.Organization.ID := 100; pb.Organization.Path := "course-org" |}.

Definition aliceInStudents : scm.TeamMembershipOptions.t :=
  {| scm.TeamMembershipOptions.Organization := org100;
     scm.TeamMembershipOptions.TeamSlug := "students";
     scm.TeamMembershipOptions.TeamID := 0%Z;
     scm.TeamMembershipOptions.Username := "alice";
     scm.TeamMembershipOptions.Role := "" |}.

End double.

(** ** Steps performed in sequence

    The specification describes a transition as steps taken in a given
    order, each one only after every earlier one succeeded.  A step is a
    call on the SCM or a command of the store; [in_sequence] performs the
    steps of a list in the list's order on the store and the SCM, records
    each call with the error the interface answered, and stops at the first
    step that fails.  [resolving] first resolves the organization and hands
    it to the steps that follow. *)

Section Protocol.

Context {DB SC : Type}.
Variable store : Database DB.
Variable adapter : scm.SCM SC.
Variable createRepoAndTeam :
  SC -> pb.Course.t -> string -> string -> list string ->
  (option scm.Repository.t * option scm.Team.t * option error) * SC.

(** The store, the SCM and the calls made so far: a world without its
    log entries. *)
Definition Trail : Type := (DB * SC * list Event)%type.

Definition trail (w : @World DB SC) : Trail := (db w, sc w, calls w).

Inductive Step : Type :=
| onSCM (c : Call) (f : SC -> option error * SC)
| onStore (c : Call) (f : DB -> option error * DB).

Definition perform (st : Step) (t : Trail) : option error * Trail :=
  let '(d, s, tr) := t in
  match st with
  | onSCM c f =>
    let (err, s') := f s in
    (err, (d, s', tr ++ [ {| call := c; failure := err |} ]))
  | onStore c f =>
    let (err, d') := f d in
    (err, (d', s, tr ++ [ {| call := c; failure := err |} ]))
  end.

Fixpoint in_sequence (steps : list Step) (t : Trail) : option error * Trail :=
  match steps with
  | [] => (None, t)
  | st :: steps' =>
    let (err, t') := perform st t in
    match err with
    | Some e => (Some e, t')
    | None => in_sequence steps' t'
    end
  end.

Definition resolving (id : N) (steps : pb.Organization.t -> list Step)
    (t : Trail) : option error * Trail :=
  let '(d, s, tr) := t in
  let (r, s') := scm.GetOrganization adapter s id in
  let t' := (d, s', tr ++ [ {| call := SCM_GetOrganization id;
                               failure := failed r |} ]) in
  match r with
  | Err err => (Some err, t')
  | Ok org => in_sequence (steps org) t'
  end.

(** The steps of the transitions: each is the interface's operation under
    the call it is recorded as. *)
Definition stepUpdateOrgMembership (opt : scm.OrgMembership.t) : Step :=
  onSCM (SCM_UpdateOrgMembership opt)
        (fun s => scm.UpdateOrgMembership adapter s opt).

Definition stepRemoveTeamMember (opt : scm.TeamMembershipOptions.t) : Step :=
  onSCM (SCM_RemoveTeamMember opt)
        (fun s => scm.RemoveTeamMember adapter s opt).

Definition stepAddTeamMember (opt : scm.TeamMembershipOptions.t) : Step :=
  onSCM (SCM_AddTeamMember opt) (fun s => scm.AddTeamMember adapter s opt).

Definition stepEnrollTeacher (uid cid : N) : Step :=
  onStore (DB_EnrollTeacher uid cid) (fun d => EnrollTeacher store d uid cid).

Definition stepEnrollStudent (uid cid : N) : Step :=
  onStore (DB_EnrollStudent uid cid) (fun d => EnrollStudent store d uid cid).

Definition stepCreateRepository (repo : pb.Repository.t) : Step :=
  onStore (DB_CreateRepository repo) (fun d => CreateRepository store d repo).


End Protocol.

(** ** Status writes

    The status a store command persists for an enrollment. *)
Definition written_status (c : Call) : option pb.Enrollment_UserStatus :=
  match c with
  | DB_RejectEnrollment _ _ => Some pb.Enrollment_REJECTED
  | DB_SetPendingEnrollment _ _ => Some pb.Enrollment_PENDING
  | DB_EnrollStudent _ _ => Some pb.Enrollment_STUDENT
  | DB_EnrollTeacher _ _ => Some pb.Enrollment_TEACHER
  | _ => None
  end.

(** ** [updateCourse]

    [UpdateCourse] is one more method of the store interface.  The function
    is written with the store and the SCM passed explicitly. *)

Section CourseUpdate.

Context {DB SC : Type}.
Variable store : Database DB.
Variable adapter : scm.SCM SC.
Variable UpdateCourse : DB -> pb.Course.t -> option error * DB.

(** [updateCourse] updates an existing course. *)
Definition updateCourse (d : DB) (s : SC) (request : pb.Course.t)
  : option error * DB * SC :=
  match GetCourse store d (pb.Course.ID request) with
  | Err err => (Some err, d, s)
  | Ok _ =>
    let (r, s') :=
      scm.GetOrganization adapter s (pb.Course.OrganizationID request) in
    match r with
    | Err err => (Some err, d, s')
    | Ok _ =>
      let (err, d') := UpdateCourse d request in
      (err, d', s')
    end
  end.

End CourseUpdate.

(** ** The member view of the front end ([MemberView.tsx])

    The view is modelled by what its handlers compute: the links a row
    offers, the effects of a click, and the lists a search leaves in the
    component's state.  The link of a user relation is declared in the
    models of the front end; only its [state] is read here, so its type and
    [state] are parameters, as are [String.prototype.toLowerCase] and the
    answer of the browser's [confirm] dialog.  A JavaScript string is taken
    as the sequence of its code units. *)

Module MemberView.

Definition UserStatus_eqb (a b : pb.Enrollment_UserStatus) : bool :=
  match a, b with
  | pb.Enrollment_NONE, pb.Enrollment_NONE => true
  | pb.Enrollment_PENDING, pb.Enrollment_PENDING => true
  | pb.Enrollment_REJECTED, pb.Enrollment_REJECTED => true
  | pb.Enrollment_STUDENT, pb.Enrollment_STUDENT => true
  | pb.Enrollment_TEACHER, pb.Enrollment_TEACHER => true
  | pb.Enrollment_UserStatus_unnamed v, pb.Enrollment_UserStatus_unnamed v' =>
    (v =? v')%Z
  | _, _ => false
  end.

(** [s.indexOf(q)]: the first position of [q] in [s], or -1. *)
Definition indexOf (s q : string) : Z :=
  match String.index 0 q s with
  | Some n => Z.of_nat n
  | None => (-1)%Z
  end.

Record User : Type := mkUser { getName : string; getStudentid : string }.

Record ILink : Type := mkILink {
  name : string;
  uri : option string;
  extra : option string
}.

Section View.

Variable Link : Type.
Variable state : Link -> pb.Enrollment_UserStatus.
Variable toLowerCase : string -> string.
Variable confirm : string -> bool.

Record IUserRelation : Type := mkIUserRelation { user : User; link : Link }.

Record IUserViewerProps : Type := mkProps {
  props_acceptedUsers : list IUserRelation;
  props_pendingUsers : list IUserRelation;
  props_rejectedUsers : list IUserRelation
}.

Record IUserViewerState : Type := mkState {
  acceptedUsers : list IUserRelation;
  pendingUsers : list IUserRelation;
  rejectedUsers : list IUserRelation
}.

(** The constructor copies the lists of the properties into the state. *)
Definition constructor (props : IUserViewerProps) : IUserViewerState :=
  {| acceptedUsers := props_acceptedUsers props;
     pendingUsers := props_pendingUsers props;
     rejectedUsers := props_rejectedUsers props |}.

(** [pendingActions] of [render]. *)
Definition pendingActions : list ILink :=
  [ {| name := "Accept"; uri := Some "accept"; extra := Some "primary" |};
    {| name := "Reject"; uri := Some "reject"; extra := Some "danger" |} ].

(** The optional actions [renderRejectedView] gives a row. *)
Definition renderRejectedView_links (user : IUserRelation) : list ILink :=
  let links := [] in
  if UserStatus_eqb (state (link user)) pb.Enrollment_REJECTED
  then links ++
       [ {| name := "Set pending"; uri := Some "remove";
            extra := Some "primary" |} ]
  else links.

(** The optional actions [renderUserView] gives a row. *)
Definition renderUserView_links (user : IUserRelation) : list ILink :=
  let links := [] in
  if UserStatus_eqb (state (link user)) pb.Enrollment_TEACHER
  then links ++
       [ {| name := "This is a teacher"; uri := None;
            extra := Some "primary" |} ]
  else (links ++
        [ {| name := "Make Teacher"; uri := Some "teacher";
             extra := Some "primary" |} ]) ++
       [ {| name := "Reject"; uri := Some "reject"; extra := Some "danger" |} ].

(** What [handleAction] does to the outside: it may ask for confirmation,
    may ask the course manager to change a user's state, and refreshes the
    navigation. *)
Inductive Effect : Type :=
| confirmDialog (message : string)
| changeUserState (l : Link) (status : pb.Enrollment_UserStatus)
| refresh.

Definition teacherWarning (userRel : IUserRelation) : string :=
  ("Warning! This action is irreversible!
                    Do you want to continue assigning:
                    " ++ getName (user userRel) ++ " as a teacher?")%string.

Definition handleAction (userRel : IUserRelation) (l : ILink) : list Effect :=
  match uri l with
  | Some u =>
    if String.eqb u "accept" then
      [changeUserState (link userRel) pb.Enrollment_STUDENT]
    else if String.eqb u "reject" then
      [changeUserState (link userRel) pb.Enrollment_REJECTED]
    else if String.eqb u "teacher" then
      confirmDialog (teacherWarning userRel) ::
      (if confirm (teacherWarning userRel)
       then [changeUserState (link userRel) pb.Enrollment_TEACHER]
       else [])
    else if String.eqb u "remove" then
      [changeUserState (link userRel) pb.Enrollment_PENDING]
    else []
  | None => []
  end ++ [refresh].

(** The test of the three loops of [handleSearch]; [query] is in lower
    case already. *)
Definition found (query : string) (u : IUserRelation) : bool :=
  negb (indexOf (toLowerCase (getName (user u))) query =? -1)%Z
  || negb (indexOf (toLowerCase (getStudentid (user u))) query =? -1)%Z.

(** One loop of [handleSearch]: the users found are pushed, one by one, on
    an empty array.  The three loops differ in the list they read only. *)
Definition filtered (query : string) (users : list IUserRelation)
  : list IUserRelation :=
  fold_left
    (fun acc u => if found query u then acc ++ [u] else acc)
    users [].

Definition handleSearch (props : IUserViewerProps) (query : string)
    (st : IUserViewerState) : IUserViewerState :=
  let query := toLowerCase query in
  let filteredAccepted := filtered query (props_acceptedUsers props) in
  let st := {| acceptedUsers := filteredAccepted;
               pendingUsers := pendingUsers st;
               rejectedUsers := rejectedUsers st |} in
  let filteredPending := filtered query (props_pendingUsers props) in
  let st := {| acceptedUsers := acceptedUsers st;
               pendingUsers := filteredPending;
               rejectedUsers := rejectedUsers st |} in
  let filteredRejected := filtered query (props_rejectedUsers props) in
  {| acceptedUsers := acceptedUsers st;
     pendingUsers := pendingUsers st;
     rejectedUsers := filteredRejected |}.

End View.

Arguments mkIUserRelation {Link} user link.
Arguments user {Link} _.
Arguments link {Link} _.
Arguments mkProps {Link} _ _ _.
Arguments props_acceptedUsers {Link} _.
Arguments props_pendingUsers {Link} _.
Arguments props_rejectedUsers {Link} _.
Arguments mkState {Link} _ _ _.
Arguments acceptedUsers {Link} _.
Arguments pendingUsers {Link} _.
Arguments rejectedUsers {Link} _.
Arguments constructor {Link} props.
Arguments renderRejectedView_links {Link} state user.
Arguments renderUserView_links {Link} state user.
Arguments confirmDialog {Link} message.
Arguments changeUserState {Link} l status.
Arguments refresh {Link}.
Arguments teacherWarning {Link} userRel.
Arguments handleAction {Link} confirm userRel l.
Arguments found {Link} toLowerCase query u.
Arguments filtered {Link} toLowerCase query users.
Arguments handleSearch {Link} toLowerCase props query st.

End MemberView.

(** ** More test doubles *)

Module double2.

(** The in-memory store replaces the course that has the same ID. *)
Definition UpdateCourse (d : double.Store) (c : pb.Course.t)
  : option error * double.Store :=
  (None,
   {| double.enrollments := double.enrollments d;
      double.repositories := double.repositories d;
      double.courses :=
        map (fun c' => if (pb.Course.ID c' =? pb.Course.ID c)%N then c else c')
            (double.courses d) |}).

(** Course 7, moved to organization 200. *)
Definition course7moved : pb.Course.t :=
  {| pb.Course.ID := 7; pb.Course.OrganizationID := 200 |}.

(** An enrollment that was stored without its course, and one without its
    user. *)
Definition withoutCourse : double.Store :=
  {| double.enrollments :=
       [ {| pb.Enrollment.CourseID := 7;
            pb.Enrollment.UserID := 42;
            pb.Enrollment.GroupID := 0;
            pb.Enrollment.Status := pb.Enrollment_STUDENT;
            pb.Enrollment.User := Some double.alice;
            pb.Enrollment.Course := None |} ];
     double.repositories := [];
     double.courses := [double.course7] |}.

Definition withoutUser : double.Store :=
  {| double.enrollments :=
       [ {| pb.Enrollment.CourseID := 7;
            pb.Enrollment.UserID := 42;
            pb.Enrollment.GroupID := 0;
            pb.Enrollment.Status := pb.Enrollment_STUDENT;
            pb.Enrollment.User := None;
            pb.Enrollment.Course := Some double.course7 |} ];
     double.repositories := [];
     double.courses := [double.course7] |}.

(** A store without any enrollment. *)
Definition emptyStore : double.Store :=
  {| double.enrollments := [];
     double.repositories := [];
     double.courses := [double.course7] |}.

(** Lower case of the letters A to Z. *)
Definition lowerAscii (c : Ascii.ascii) : Ascii.ascii :=
  let n := Ascii.nat_of_ascii c in
  if ((65 <=? n) && (n <=? 90))%nat then Ascii.ascii_of_nat (n + 32) else c.

Fixpoint toLowerCase (s : string) : string :=
  match s with
  | EmptyString => EmptyString
  | String c s' => String (lowerAscii c) (toLowerCase s')
  end.

(** In the view's doubles the link of a relation is its state. *)
Definition relation (name studentid : string) (st : pb.Enrollment_UserStatus)
  : MemberView.IUserRelation pb.Enrollment_UserStatus :=
  MemberView.mkIUserRelation (MemberView.mkUser name studentid) st.

Definition ada := relation "Ada Lovelace" "s1815" pb.Enrollment_STUDENT.
Definition grace := relation "Grace Hopper" "s1906" pb.Enrollment_TEACHER.
Definition alan := relation "Alan Turing" "s1912" pb.Enrollment_PENDING.
Definition kurt := relation "Kurt Goedel" "s1906b" pb.Enrollment_REJECTED.

Definition members : MemberView.IUserViewerProps pb.Enrollment_UserStatus :=
  MemberView.mkProps [ada; grace] [alan] [kurt].

(** Course 7 with three enrollments, the second one in group 3. *)
Definition bob : pb.Enrollment.t :=
  {| pb.Enrollment.CourseID := 7;
     pb.Enrollment.UserID := 43;
     pb.Enrollment.GroupID := 3;
     pb.Enrollment.Status := pb.Enrollment_STUDENT;
     pb.Enrollment.User := None;
     pb.Enrollment.Course := None |}.

Definition carol : pb.Enrollment.t :=
  {| pb.Enrollment.CourseID := 7;
     pb.Enrollment.UserID := 44;
     pb.Enrollment.GroupID := 0;
     pb.Enrollment.Status := pb.Enrollment_STUDENT;
     pb.Enrollment.User := None;
     pb.Enrollment.Course := None |}.

Definition groupStore : double.Store :=
  {| double.enrollments := [double.enrolled pb.Enrollment_STUDENT 0; bob; carol];
     double.repositories := [];
     double.courses := [double.course7] |}.

Definition withoutGroups : pb.EnrollmentsRequest.t :=
  {| pb.EnrollmentsRequest.CourseID := 7;
     pb.EnrollmentsRequest.States := [];
     pb.EnrollmentsRequest.FilterOutGroupMembers := true |}.

Definition teacherLink : MemberView.ILink :=
  {| MemberView.name := "Make Teacher";
     MemberView.uri := Some "teacher";
     MemberView.extra := Some "primary" |}.

Definition yes : string -> bool := fun _ => true.

End double2.

(** ** Symbolic execution of the service functions *)

Ltac unfold_service :=
  unfold updateEnrollment, updateReposAndTeams, createEnrollment,
    getEnrollmentsByCourse, getRepositoryURL,
    db_CreateEnrollment, db_GetEnrollmentByCourseAndUser, db_RejectEnrollment,
    db_SetPendingEnrollment, db_EnrollStudent, db_EnrollTeacher,
    db_GetRepositories, db_CreateRepository, db_GetCourse,
    db_GetEnrollmentsByCourse, sc_GetOrganization, sc_AddTeamMember,
    sc_RemoveTeamMember, sc_UpdateOrgMembership, sc_createRepoAndTeam,
    query, command, scmCall, deref, index, bind, ret, panic, log, record,
    start,
    pb.Enrollment.GetCourse, pb.Enrollment.GetUser, pb.Enrollment.GetStatus,
    pb.Enrollment.GetUserID, pb.Enrollment.GetCourseID in *;
  cbn [db sc calls logs fst snd app] in *.

(** Case analysis on every call result and branch the run [H] goes through,
    innermost scrutinee first. *)
Ltac exec_in H :=
  repeat (cbn [db sc calls logs fst snd app failed] in H;
    match type of H with
    | (_, _) = (_, _) => fail 1
    | context [match ?x with _ => _ end] =>
        match x with
        | context [match _ with _ => _ end] => fail 1
        | _ => let E := fresh "E" in destruct x eqn:E
        end
    end).

Ltac finish_run H := inversion H; subst; clear H; cbn [calls db sc logs] in *.


(** Runs the steps of a statement on the answers the case analysis of the
    run has fixed. *)
Ltac replay_steps :=
  cbn [pb.Course.GetOrganizationID pb.User.GetLogin] in *;
  unfold resolving, stepUpdateOrgMembership, stepRemoveTeamMember,
    stepAddTeamMember, stepEnrollTeacher, stepEnrollStudent,
    stepCreateRepository, trail;
  repeat (cbn [in_sequence perform fst snd app failed db sc calls];
          match goal with
          | E : ?x = _ |- context [?x] => rewrite E
          end);
  cbn [in_sequence perform fst snd app failed db sc calls].

(** ** Properties of the enrollment operations *)

Section Properties.

Context {DB SC : Type}.
Variable store : Database DB.
Variable adapter : scm.SCM SC.
Variable createRepoAndTeam :
  SC -> pb.Course.t -> string -> string -> list string ->
  (option scm.Repository.t * option scm.Team.t * option error) * SC.
Variable StudentRepoName : string -> string.
Variable Sprintf_found : nat -> pb.Repository.t -> string.

Local Abbreviation update :=
  (updateEnrollment store adapter createRepoAndTeam StudentRepoName).




(** C2.  A TEACHER transition whose enrollment is loaded with its course
    takes its steps in exactly this order, each one only after every
    earlier one succeeded: the organization is resolved, then
    UpdateOrgMembership promotes the user to role "admin" in it, then
    RemoveTeamMember takes the user out of the "students" team, then
    AddTeamMember puts the user in the "teachers" team with role
    "maintainer"; EnrollTeacher is persisted only after all of them
    succeeded.  The store, the SCM and the recorded calls at the end of the
    run are those the steps leave; the run returns the error of the step
    that failed, and the result of EnrollTeacher otherwise.  (For an
    enrollment loaded without its user the steps are taken with an empty
    login and nothing is persisted: the run panics when it reads the
    teacher.) *)
Theorem updateEnrollment_teacher_order d s request enrollment c out w' :
  pb.Enrollment.Status request = pb.Enrollment_TEACHER ->
  GetEnrollmentByCourseAndUser store d (pb.Enrollment.CourseID request)
    (pb.Enrollment.UserID request) = Ok enrollment ->
  pb.Enrollment.Course enrollment = Some c ->
  update request (start d s) = (out, w') ->
  let login := pb.User.GetLogin (pb.Enrollment.User enrollment) in
  let scm_steps :=
    resolving adapter (pb.Course.OrganizationID c)
      (fun org =>
         [ stepUpdateOrgMembership adapter
             {| scm.OrgMembership.Organization := org;
                scm.OrgMembership.Username := login;
                scm.OrgMembership.Role := "admin" |};
           stepRemoveTeamMember adapter
             {| scm.TeamMembershipOptions.Organization := org;
                scm.TeamMembershipOptions.TeamSlug := "students";
                scm.TeamMembershipOptions.TeamID := 0%Z;
                scm.TeamMembershipOptions.Username := login;
                scm.TeamMembershipOptions.Role := "" |};
           stepAddTeamMember adapter
             {| scm.TeamMembershipOptions.Organization := org;
                scm.TeamMembershipOptions.TeamSlug := "teachers";
                scm.TeamMembershipOptions.TeamID := 0%Z;
                scm.TeamMembershipOptions.Username := login;
                scm.TeamMembershipOptions.Role := "maintainer" |} ])
      (d, s,
       [ {| call := DB_GetEnrollmentByCourseAndUser
                      (pb.Enrollment.CourseID request)
                      (pb.Enrollment.UserID request);
            failure := None |} ]) in
  match fst scm_steps, pb.Enrollment.User enrollment with
  | None, Some u =>
    let persist :=
      perform (stepEnrollTeacher store (pb.User.ID u) (pb.Course.ID c))
              (snd scm_steps) in
    out = Returns (fst persist) /\ trail w' = snd persist
  | Some err, Some _ =>
    out = Returns (Some err) /\ trail w' = snd scm_steps
  | _, None =>
    out = Panics /\ trail w' = snd scm_steps
  end.
Proof.
  intros Hst Hload Hcourse Hrun login scm_steps.
  subst login scm_steps.
  unfold_service.
  rewrite Hload, Hst, Hcourse in Hrun.
  cbn [db sc calls logs fst snd app] in Hrun.
  exec_in Hrun.
  all: finish_run Hrun.
  all: replay_steps.
  all: split; reflexivity.
Qed.

(** C3.  A transition to STUDENT that finds at least one USER repository
    for the course's organization and the requested user makes no SCM call
    and creates nothing: after the two queries its only call is
    EnrollStudent, whose result it returns; the SCM is left as it was. *)
Theorem updateEnrollment_student_existing_repo
    d s request enrollment repos out w' :
  pb.Enrollment.Status request = pb.Enrollment_STUDENT ->
  GetEnrollmentByCourseAndUser store d (pb.Enrollment.CourseID request)
    (pb.Enrollment.UserID request) = Ok enrollment ->
  GetRepositories store d
    {| pb.Repository.OrganizationID :=
         pb.Course.GetOrganizationID (pb.Enrollment.Course enrollment);
       pb.Repository.RepositoryID := 0%N;
       pb.Repository.UserID := pb.Enrollment.UserID request;
       pb.Repository.HTMLURL := "";
       pb.Repository.RepoType := pb.Repository_USER |} = Ok repos ->
  repos <> [] ->
  update request (start d s) = (out, w') ->
  out = Returns (fst (EnrollStudent store d (pb.Enrollment.UserID request)
                                    (pb.Enrollment.CourseID request))) /\
  calls w' =
    [ {| call := DB_GetEnrollmentByCourseAndUser
                   (pb.Enrollment.CourseID request)
                   (pb.Enrollment.UserID request);
         failure := None |};
      {| call := DB_GetRepositories
                   {| pb.Repository.OrganizationID :=
                        pb.Course.GetOrganizationID
                          (pb.Enrollment.Course enrollment);
                      pb.Repository.RepositoryID := 0%N;
                      pb.Repository.UserID := pb.Enrollment.UserID request;
                      pb.Repository.HTMLURL := "";
                      pb.Repository.RepoType := pb.Repository_USER |};
         failure := None |};
      {| call := DB_EnrollStudent (pb.Enrollment.UserID request)
                                  (pb.Enrollment.CourseID request);
         failure := fst (EnrollStudent store d (pb.Enrollment.UserID request)
                                       (pb.Enrollment.CourseID request)) |} ] /\
  Forall (fun ev => is_scm_call (call ev) = false) (calls w') /\
  sc w' = s /\
  db w' = snd (EnrollStudent store d (pb.Enrollment.UserID request)
                             (pb.Enrollment.CourseID request)).
Proof.
  intros Hst Hload Hrepos Hne Hrun.
  unfold_service.
  rewrite Hload, Hst in Hrun.
  cbn [db sc calls logs fst snd app] in Hrun. rewrite Hrepos in Hrun.
  destruct repos as [| repo repos]; [congruence | ].
  cbn [List.length Nat.ltb Nat.leb failed db sc calls logs app] in Hrun.
  destruct (EnrollStudent store d (pb.Enrollment.UserID request)
                          (pb.Enrollment.CourseID request)) as [err d'].
  finish_run Hrun. cbn [fst snd].
  repeat split; repeat constructor.
Qed.

(** C5, as amended.  A requested status other than PENDING, REJECTED,
    STUDENT and TEACHER, for an enrollment that loads, yields the plain
    error that [fmt.Errorf] builds from "unknown enrollment"; the run makes
    no SCM call and no store write: its only call is the query that loaded
    the enrollment, and the store and the SCM are unchanged. *)
Theorem updateEnrollment_unknown_status d s request enrollment out w' :
  pb.Enrollment.Status request <> pb.Enrollment_PENDING ->
  pb.Enrollment.Status request <> pb.Enrollment_REJECTED ->
  pb.Enrollment.Status request <> pb.Enrollment_STUDENT ->
  pb.Enrollment.Status request <> pb.Enrollment_TEACHER ->
  GetEnrollmentByCourseAndUser store d (pb.Enrollment.CourseID request)
    (pb.Enrollment.UserID request) = Ok enrollment ->
  update request (start d s) = (out, w') ->
  out = Returns (Some (fmt_Errorf "unknown enrollment")) /\
  calls w' =
    [ {| call := DB_GetEnrollmentByCourseAndUser
                   (pb.Enrollment.CourseID request)
                   (pb.Enrollment.UserID request);
         failure := None |} ] /\
  Forall (fun ev => is_scm_call (call ev) = false /\
                    is_store_write (call ev) = false) (calls w') /\
  db w' = d /\ sc w' = s.
Proof.
  intros Hp Hr Hs Ht Hload Hrun.
  unfold_service. rewrite Hload in Hrun.
  destruct (pb.Enrollment.Status request); try congruence.
  all: finish_run Hrun.
  all: repeat split; repeat constructor.
Qed.

(** C4.  A transition to STUDENT that finds no USER repository takes its
    steps in exactly this order, each one only after every earlier one
    succeeded: the organization is resolved by GetOrganization,
    AddTeamMember adds the user to the "students" team, the repository and
    the team of that single user are created, CreateRepository persists the
    record of the new repository, and EnrollStudent persists the status
    last.  Every SCM call comes before every store write.  The store, the
    SCM and the recorded calls at the end of the run are those the steps
    leave; the run returns the error of the step that failed, and the
    result of EnrollStudent otherwise.  (The run panics, with the steps
    taken so far, when the enrollment was loaded without its course, when
    the creation returns neither a repository nor an error, and when a step
    fails for an enrollment loaded without its user.) *)
Theorem updateEnrollment_student_provisioning_order
    d s request enrollment out w' :
  pb.Enrollment.Status request = pb.Enrollment_STUDENT ->
  GetEnrollmentByCourseAndUser store d (pb.Enrollment.CourseID request)
    (pb.Enrollment.UserID request) = Ok enrollment ->
  GetRepositories store d
    {| pb.Repository.OrganizationID :=
         pb.Course.GetOrganizationID (pb.Enrollment.Course enrollment);
       pb.Repository.RepositoryID := 0%N;
       pb.Repository.UserID := pb.Enrollment.UserID request;
       pb.Repository.HTMLURL := "";
       pb.Repository.RepoType := pb.Repository_USER |} = Ok [] ->
  update request (start d s) = (out, w') ->
  let login := pb.User.GetLogin (pb.Enrollment.User enrollment) in
  let failing (err : error) :=
    match pb.Enrollment.User enrollment with
    | Some _ => Returns (Some err)
    | None => Panics
    end in
  let loaded : Trail :=
    (d, s,
     [ {| call := DB_GetEnrollmentByCourseAndUser
                    (pb.Enrollment.CourseID request)
                    (pb.Enrollment.UserID request);
          failure := None |};
       {| call := DB_GetRepositories
                    {| pb.Repository.OrganizationID :=
                         pb.Course.GetOrganizationID
                           (pb.Enrollment.Course enrollment);
                       pb.Repository.RepositoryID := 0%N;
                       pb.Repository.UserID := pb.Enrollment.UserID request;
                       pb.Repository.HTMLURL := "";
                       pb.Repository.RepoType := pb.Repository_USER |};
          failure := None |} ]) in
  scm_before_store_writes (calls w') /\
  match pb.Enrollment.Course enrollment with
  | None => out = Panics /\ trail w' = loaded
  | Some c =>
    let team_steps :=
      resolving adapter (pb.Course.OrganizationID c)
        (fun org =>
           [ stepAddTeamMember adapter
               {| scm.TeamMembershipOptions.Organization := org;
                  scm.TeamMembershipOptions.TeamSlug := "students";
                  scm.TeamMembershipOptions.TeamID := 0%Z;
                  scm.TeamMembershipOptions.Username := login;
                  scm.TeamMembershipOptions.Role := "" |} ])
        loaded in
    match fst team_steps with
    | Some err => out = failing err /\ trail w' = snd team_steps
    | None =>
      let created :=
        createRepoAndTeam (snd (fst (snd team_steps))) c
          (StudentRepoName login) login [login] in
      let provisioned : Trail :=
        (fst (fst (snd team_steps)),
         snd created,
         snd (snd team_steps) ++
         [ {| call := SCM_createRepoAndTeam c (StudentRepoName login) login
                                            [login];
              failure := snd (fst created) |} ]) in
      match snd (fst created), fst (fst (fst created)) with
      | Some err, _ => out = failing err /\ trail w' = provisioned
      | None, None => out = Panics /\ trail w' = provisioned
      | None, Some repo =>
        let persist :=
          in_sequence
            [ stepCreateRepository store
                {| pb.Repository.OrganizationID := pb.Course.OrganizationID c;
                   pb.Repository.RepositoryID := scm.Repository.ID repo;
                   pb.Repository.UserID := pb.Enrollment.UserID request;
                   pb.Repository.HTMLURL := scm.Repository.WebURL repo;
                   pb.Repository.RepoType := pb.Repository_USER |};
              stepEnrollStudent store (pb.Enrollment.UserID request)
                                (pb.Enrollment.CourseID request) ]
            provisioned in
        out = Returns (fst persist) /\ trail w' = snd persist
      end
    end
  end.
Proof.
  intros Hst Hload Hrepos Hrun login failing loaded.
  subst login failing loaded.
  unfold_service.
  rewrite Hload, Hst in Hrun.
  cbn [db sc calls logs fst snd app] in Hrun.
  rewrite Hrepos in Hrun.
  cbn [List.length Nat.ltb Nat.leb failed db sc calls logs app] in Hrun.
  exec_in Hrun.
  all: finish_run Hrun.
  all: split;
    [ cbn [scm_before_store_writes call is_store_write is_scm_call];
      repeat split; try discriminate; intros; repeat constructor
    | ].
  all: replay_steps.
  all: try match goal with
           | |- context [match ?o with _ => _ end] => is_var o; destruct o
           end.
  all: split; reflexivity.
Qed.


(** C8.  [createEnrollment] hands the store an enrollment that has the
    request's UserID and CourseID, status PENDING and no other field set,
    and returns what the store returns; whatever else the request carries
    (a status, a group, a user, a course) makes no difference. *)
Theorem createEnrollment_pending d (s : SC) request :
  let enrollment :=
    {| pb.Enrollment.CourseID := pb.Enrollment.CourseID request;
       pb.Enrollment.UserID := pb.Enrollment.UserID request;
       pb.Enrollment.GroupID := 0%N;
       pb.Enrollment.Status := pb.Enrollment_PENDING;
       pb.Enrollment.User := None;
       pb.Enrollment.Course := None |} in
  createEnrollment store request (start d s) =
    (Returns (fst (CreateEnrollment store d enrollment)),
     {| db := snd (CreateEnrollment store d enrollment);
        sc := s;
        calls := [ {| call := DB_CreateEnrollment enrollment;
                      failure := fst (CreateEnrollment store d enrollment) |} ];
        logs := [] |}) /\
  forall group status user course,
    createEnrollment store
      {| pb.Enrollment.CourseID := pb.Enrollment.CourseID request;
         pb.Enrollment.UserID := pb.Enrollment.UserID request;
         pb.Enrollment.GroupID := group;
         pb.Enrollment.Status := status;
         pb.Enrollment.User := user;
         pb.Enrollment.Course := course |} (start d s)
    = createEnrollment store request (start d s).
Proof.
  intros enrollment. split.
  - unfold_service. fold enrollment.
    now destruct (CreateEnrollment store d enrollment).
  - reflexivity.
Qed.

(** The loop of [getEnrollmentsByCourse], started from any slice, appends
    to it the enrollments whose group is 0, in their order. *)
Lemma enrollmentsWithoutGroups_loop enrollments acc :
  fold_left
    (fun acc enrollment =>
       if (pb.Enrollment.GroupID enrollment =? 0)%N
       then acc ++ [enrollment]
       else acc)
    enrollments acc
  = acc ++ filter (fun e => (pb.Enrollment.GroupID e =? 0)%N) enrollments.
Proof.
  revert acc.
  induction enrollments as [| e l IH]; intros acc; cbn [fold_left filter].
  - now rewrite app_nil_r.
  - rewrite IH. destruct (pb.Enrollment.GroupID e =? 0)%N.
    + now rewrite <- app_assoc.
    + reflexivity.
Qed.

Lemma enrollmentsWithoutGroups_filter enrollments :
  enrollmentsWithoutGroups enrollments
  = filter (fun e => (pb.Enrollment.GroupID e =? 0)%N) enrollments.
Proof.
  unfold enrollmentsWithoutGroups.
  now rewrite enrollmentsWithoutGroups_loop.
Qed.

(** C9.  With FilterOutGroupMembers set, [getEnrollmentsByCourse] returns
    exactly the enrollments of the store's list whose GroupID is 0, in the
    store's order; with the flag unset it returns the store's list
    unchanged.  An error of the store is returned as it is. *)
Theorem getEnrollmentsByCourse_without_group_members d (s : SC) request :
  fst (getEnrollmentsByCourse store request (start d s)) =
  Returns
    match GetEnrollmentsByCourse store d
            (pb.EnrollmentsRequest.CourseID request)
            (pb.EnrollmentsRequest.States request) with
    | Err err => Err err
    | Ok enrollments =>
      Ok {| pb.Enrollments.Enrollments :=
              if pb.EnrollmentsRequest.FilterOutGroupMembers request
              then filter (fun e => (pb.Enrollment.GroupID e =? 0)%N)
                          enrollments
              else enrollments |}
    end.
Proof.
  unfold_service.
  destruct (GetEnrollmentsByCourse store d _ _) as [enrollments | err];
    cbn [fst]; [ | reflexivity ].
  now rewrite enrollmentsWithoutGroups_filter.
Qed.

(** C10.  [getRepositoryURL] returns a URL exactly when the course loads
    and the store's answer to the query (the course's organization, the
    requested type, and the current user's ID exactly when the type is
    USER) is one repository; the URL is that repository's HTMLURL.  In
    every other case it returns an error: it always returns one or the
    other. *)
Theorem getRepositoryURL_exactly_one d (s : SC) currentUser request :
  let out :=
    fst (getRepositoryURL store Sprintf_found currentUser request (start d s)) in
  (forall url,
      out = Returns (Ok {| pb.URLResponse.URL := url |}) <->
      exists course repo,
        GetCourse store d (pb.RepositoryRequest.CourseID request) = Ok course /\
        GetRepositories store d
          {| pb.Repository.OrganizationID := pb.Course.OrganizationID course;
             pb.Repository.RepositoryID := 0%N;
             pb.Repository.UserID :=
               if pb.is_Repository_USER (pb.RepositoryRequest.Type_ request)
               then pb.User.GetID currentUser
               else 0%N;
             pb.Repository.HTMLURL := "";
             pb.Repository.RepoType := pb.RepositoryRequest.Type_ request |}
        = Ok [repo] /\
        pb.Repository.HTMLURL repo = url) /\
  ((exists response, out = Returns (Ok response)) \/
   (exists err, out = Returns (Err err))).
Proof.
  intros out. subst out. unfold_service.
  unfold pb.RepositoryRequest.GetCourseID, pb.RepositoryRequest.GetType.
  destruct (GetCourse store d _) as [course | err] eqn:Ecourse;
    cbn [fst db].
  2: { split; [ | right; eauto ].
       intros url; split; [discriminate | ].
       intros (course & repo & H & _); discriminate. }
  destruct (GetRepositories store d _) as [repos | err] eqn:Erepos;
    cbn [fst db].
  2: { split; [ | right; eauto ].
       intros url; split; [discriminate | ].
       intros (course' & repo & H & H' & _).
       injection H as <-. rewrite Erepos in H'. discriminate. }
  destruct repos as [| repo [| repo' repos] ]; cbn.
  - split; [ | right; eauto ].
    intros url; split; [discriminate | ].
    intros (course' & repo & H & H' & _).
    injection H as <-. rewrite Erepos in H'. discriminate.
  - split; [ | left; eauto ].
    intros url; split.
    + intros H. injection H as <-. now exists course, repo.
    + intros (course' & repo' & H & H' & <-).
      injection H as <-. rewrite Erepos in H'. now injection H' as <-.
  - split; [ | right; eauto ].
    intros url; split; [discriminate | ].
    intros (course' & repo0 & H & H' & _).
    injection H as <-. rewrite Erepos in H'. discriminate.
Qed.

End Properties.

(** ** Properties of the GitLab adapter *)

Section GitlabProperties.

Context {C : Type}.
Variable client : gitlab.GroupsService C.

(** C7, as amended.  Each operation of the GitLab adapter fails exactly when
    the call it makes on the GitLab client fails, and then returns the
    client's error itself: nothing is translated. *)
Theorem gitlab_errors_passed_through (c : C) opt id :
  failed (fst (ListDirectories client c))
  = failed (fst (gitlab.ListGroups client c)) /\
  failed (fst (CreateDirectory client c opt))
  = failed (fst (gitlab.CreateGroup client c
                   {| gitlab.CreateGroupOptions.Name :=
                        Some (scm.CreateDirectoryOptions.Name opt);
                      gitlab.CreateGroupOptions.Path :=
                        Some (scm.CreateDirectoryOptions.Name opt);
                      gitlab.CreateGroupOptions.VisibilityLevel :=
                        Some gitlab.PublicVisibility |})) /\
  failed (fst (GetDirectory client c id))
  = failed (fst (gitlab.GetGroup client c id)).
Proof.
  unfold ListDirectories, CreateDirectory, GetDirectory, getVisibilityLevel.
  repeat split.
  - now destruct (gitlab.ListGroups client c) as [[groups | err] c'].
  - now destruct (gitlab.CreateGroup client c _) as [[group | err] c'].
  - now destruct (gitlab.GetGroup client c id) as [[group | err] c'].
Qed.

End GitlabProperties.

(** ** The service on concrete inputs *)





(** C7, counterexample.  GetDirectory on a GitLab server without the group
    returns the client's own 404 error, which is no error of the shared
    taxonomy. *)
Lemma gitlab_error_not_translated :
  exists err,
    fst (GetDirectory double.emptyGitlab tt 100) = Err err /\
    in_shared_taxonomy err = false /\
    is_provider_error err = true.
Proof.
  exists double.http404. repeat split.
Qed.



(** C2 on a run: alice is promoted to teacher and every step succeeds. *)
Lemma updateEnrollment_teacher_order_witness :
  fst (double.run double.noFailure pb.Enrollment_TEACHER double.pendingStore)
  = Returns None /\
  trail (snd (double.run double.noFailure pb.Enrollment_TEACHER
                         double.pendingStore))
  = (snd (EnrollTeacher double.store double.pendingStore 42 7),
     ["UpdateOrgMembership"; "RemoveTeamMember"; "AddTeamMember"],
     [ {| call := DB_GetEnrollmentByCourseAndUser 7 42; failure := None |};
       {| call := SCM_GetOrganization 100; failure := None |};
       {| call := SCM_UpdateOrgMembership
                    {| scm.OrgMembership.Organization := double.org100;
                       scm.OrgMembership.Username := "alice";
                       scm.OrgMembership.Role := "admin" |};
          failure := None |};
       {| call := SCM_RemoveTeamMember double.aliceInStudents;
          failure := None |};
       {| call := SCM_AddTeamMember
                    {| scm.TeamMembershipOptions.Organization := double.org100;
                       scm.TeamMembershipOptions.TeamSlug := "teachers";
                       scm.TeamMembershipOptions.TeamID := 0%Z;
                       scm.TeamMembershipOptions.Username := "alice";
                       scm.TeamMembershipOptions.Role := "maintainer" |};
          failure := None |};
       {| call := DB_EnrollTeacher 42 7; failure := None |} ]).
Proof.
  exact (updateEnrollment_teacher_order
           double.store (double.adapter double.noFailure)
           (double.createRepoAndTeam double.noFailure) double.StudentRepoName
           double.pendingStore [] (double.request pb.Enrollment_TEACHER)
           (double.enrolled pb.Enrollment_PENDING 0) double.course7 _ _
           eq_refl eq_refl eq_refl eq_refl).
Defined.

(** C3 on a run: alice, rejected after having been a student, is accepted
    again. *)
Lemma updateEnrollment_student_existing_repo_witness :
  fst (double.run double.noFailure pb.Enrollment_STUDENT double.rejectedStore)
  = Returns (fst (EnrollStudent double.store double.rejectedStore 42 7)) /\
  calls (snd (double.run double.noFailure pb.Enrollment_STUDENT
                         double.rejectedStore))
  = [ {| call := DB_GetEnrollmentByCourseAndUser 7 42; failure := None |};
      {| call := DB_GetRepositories
                   {| pb.Repository.OrganizationID := 100;
                      pb.Repository.RepositoryID := 0;
                      pb.Repository.UserID := 42;
                      pb.Repository.HTMLURL := "";
                      pb.Repository.RepoType := pb.Repository_USER |};
         failure := None |};
      {| call := DB_EnrollStudent 42 7;
         failure := fst (EnrollStudent double.store double.rejectedStore
                                       42 7) |} ] /\
  Forall (fun ev => is_scm_call (call ev) = false)
         (calls (snd (double.run double.noFailure pb.Enrollment_STUDENT
                                 double.rejectedStore))) /\
  sc (snd (double.run double.noFailure pb.Enrollment_STUDENT
                      double.rejectedStore)) = [] /\
  db (snd (double.run double.noFailure pb.Enrollment_STUDENT
                      double.rejectedStore))
  = snd (EnrollStudent double.store double.rejectedStore 42 7).
Proof.
  apply (updateEnrollment_student_existing_repo
           double.store (double.adapter double.noFailure)
           (double.createRepoAndTeam double.noFailure) double.StudentRepoName
           double.rejectedStore [] (double.request pb.Enrollment_STUDENT)
           (double.enrolled pb.Enrollment_REJECTED 0) [double.aliceRepo]).
  - reflexivity.
  - reflexivity.
  - reflexivity.
  - discriminate.
  - reflexivity.
Defined.

(** C4 on a run: alice, pending and without a repository, is accepted. *)
Lemma updateEnrollment_student_provisioning_order_witness :
  scm_before_store_writes
    (calls (snd (double.run double.noFailure pb.Enrollment_STUDENT
                            double.pendingStore))) /\
  fst (double.run double.noFailure pb.Enrollment_STUDENT double.pendingStore)
  = Returns None /\
  trail (snd (double.run double.noFailure pb.Enrollment_STUDENT
                         double.pendingStore))
  = (snd (EnrollStudent double.store
            (snd (CreateRepository double.store double.pendingStore
                    {| pb.Repository.OrganizationID := 100;
                       pb.Repository.RepositoryID := 501;
                       pb.Repository.UserID := 42;
                       pb.Repository.HTMLURL :=
                         "https://scm.example/alice-labs";
                       pb.Repository.RepoType := pb.Repository_USER |}))
            42 7),
     ["AddTeamMember"; "createRepoAndTeam"],
     [ {| call := DB_GetEnrollmentByCourseAndUser 7 42; failure := None |};
       {| call := DB_GetRepositories
                    {| pb.Repository.OrganizationID := 100;
                       pb.Repository.RepositoryID := 0;
                       pb.Repository.UserID := 42;
                       pb.Repository.HTMLURL := "";
                       pb.Repository.RepoType := pb.Repository_USER |};
          failure := None |};
       {| call := SCM_GetOrganization 100; failure := None |};
       {| call := SCM_AddTeamMember double.aliceInStudents; failure := None |};
       {| call := SCM_createRepoAndTeam double.course7 "alice-labs" "alice"
                                        ["alice"];
          failure := None |};
       {| call := DB_CreateRepository
                    {| pb.Repository.OrganizationID := 100;
                       pb.Repository.RepositoryID := 501;
                       pb.Repository.UserID := 42;
                       pb.Repository.HTMLURL :=
                         "https://scm.example/alice-labs";
                       pb.Repository.RepoType := pb.Repository_USER |};
          failure := None |};
       {| call := DB_EnrollStudent 42 7; failure := None |} ]).
Proof.
  exact (updateEnrollment_student_provisioning_order
           double.store (double.adapter double.noFailure)
           (double.createRepoAndTeam double.noFailure) double.StudentRepoName
           double.pendingStore [] (double.request pb.Enrollment_STUDENT)
           (double.enrolled pb.Enrollment_PENDING 0) _ _
           eq_refl eq_refl eq_refl eq_refl).
Defined.

(** C5, counterexample.  The requested status is the unnamed value 9: the
    error returned is a plain error string, no InvalidTransitionError. *)
Lemma updateEnrollment_unknown_status_error_is_untyped :
  ~ (exists err,
        fst (double.run double.noFailure (pb.Enrollment_UserStatus_unnamed 9)
                        double.pendingStore) = Returns (Some err) /\
        dynamicType err = InvalidTransitionError).
Proof.
  intros (err & Hret & Htype).
  vm_compute in Hret. injection Hret as <-. discriminate.
Qed.

(** C5 on a run: the requested status is the unnamed value 9. *)
Lemma updateEnrollment_unknown_status_witness :
  fst (double.run double.noFailure (pb.Enrollment_UserStatus_unnamed 9)
                  double.pendingStore)
  = Returns (Some (fmt_Errorf "unknown enrollment")) /\
  calls (snd (double.run double.noFailure (pb.Enrollment_UserStatus_unnamed 9)
                         double.pendingStore))
  = [ {| call := DB_GetEnrollmentByCourseAndUser 7 42; failure := None |} ] /\
  Forall (fun ev => is_scm_call (call ev) = false /\
                    is_store_write (call ev) = false)
         (calls (snd (double.run double.noFailure
                                 (pb.Enrollment_UserStatus_unnamed 9)
                                 double.pendingStore))) /\
  db (snd (double.run double.noFailure (pb.Enrollment_UserStatus_unnamed 9)
                      double.pendingStore)) = double.pendingStore /\
  sc (snd (double.run double.noFailure (pb.Enrollment_UserStatus_unnamed 9)
                      double.pendingStore)) = [].
Proof.
  apply (updateEnrollment_unknown_status
           double.store (double.adapter double.noFailure)
           (double.createRepoAndTeam double.noFailure) double.StudentRepoName
           double.pendingStore []
           (double.request (pb.Enrollment_UserStatus_unnamed 9))
           (double.enrolled pb.Enrollment_PENDING 0)).
  - discriminate.
  - discriminate.
  - discriminate.
  - discriminate.
  - reflexivity.
  - reflexivity.
Defined.


(** ** Further properties of [updateEnrollment] and [updateReposAndTeams] *)

Section EnrollmentProperties.

Context {DB SC : Type}.
Variable store : Database DB.
Variable adapter : scm.SCM SC.
Variable createRepoAndTeam :
  SC -> pb.Course.t -> string -> string -> list string ->
  (option scm.Repository.t * option scm.Team.t * option error) * SC.
Variable StudentRepoName : string -> string.

Local Abbreviation update :=
  (updateEnrollment store adapter createRepoAndTeam StudentRepoName).

Local Abbreviation reposAndTeams :=
  (updateReposAndTeams adapter createRepoAndTeam StudentRepoName).

(** X1.  A transition to REJECTED makes no SCM call: after loading the
    enrollment its only call is RejectEnrollment, for the requested user and
    course, whose result it returns; the SCM is left as it was and nothing
    is logged. *)
Theorem updateEnrollment_rejected d s request enrollment out w' :
  pb.Enrollment.Status request = pb.Enrollment_REJECTED ->
  GetEnrollmentByCourseAndUser store d (pb.Enrollment.CourseID request)
    (pb.Enrollment.UserID request) = Ok enrollment ->
  update request (start d s) = (out, w') ->
  out = Returns (fst (RejectEnrollment store d (pb.Enrollment.UserID request)
                                       (pb.Enrollment.CourseID request))) /\
  calls w' =
    [ {| call := DB_GetEnrollmentByCourseAndUser
                   (pb.Enrollment.CourseID request)
                   (pb.Enrollment.UserID request);
         failure := None |};
      {| call := DB_RejectEnrollment (pb.Enrollment.UserID request)
                                     (pb.Enrollment.CourseID request);
         failure := fst (RejectEnrollment store d
                           (pb.Enrollment.UserID request)
                           (pb.Enrollment.CourseID request)) |} ] /\
  sc w' = s /\
  db w' = snd (RejectEnrollment store d (pb.Enrollment.UserID request)
                                (pb.Enrollment.CourseID request)) /\
  logs w' = [].
Proof.
  intros Hst Hload Hrun.
  unfold_service. rewrite Hload, Hst in Hrun.
  cbn [db sc calls logs app failed] in Hrun.
  destruct (RejectEnrollment store d _ _) as [err d'].
  finish_run Hrun. cbn [fst snd]. repeat split.
Qed.

(** X2.  A transition to PENDING makes no SCM call: after loading the
    enrollment its only call is SetPendingEnrollment, for the requested user
    and course, whose result it returns; the SCM is left as it was. *)
Theorem updateEnrollment_pending d s request enrollment out w' :
  pb.Enrollment.Status request = pb.Enrollment_PENDING ->
  GetEnrollmentByCourseAndUser store d (pb.Enrollment.CourseID request)
    (pb.Enrollment.UserID request) = Ok enrollment ->
  update request (start d s) = (out, w') ->
  out = Returns (fst (SetPendingEnrollment store d
                        (pb.Enrollment.UserID request)
                        (pb.Enrollment.CourseID request))) /\
  calls w' =
    [ {| call := DB_GetEnrollmentByCourseAndUser
                   (pb.Enrollment.CourseID request)
                   (pb.Enrollment.UserID request);
         failure := None |};
      {| call := DB_SetPendingEnrollment (pb.Enrollment.UserID request)
                                         (pb.Enrollment.CourseID request);
         failure := fst (SetPendingEnrollment store d
                           (pb.Enrollment.UserID request)
                           (pb.Enrollment.CourseID request)) |} ] /\
  sc w' = s /\
  db w' = snd (SetPendingEnrollment store d (pb.Enrollment.UserID request)
                                    (pb.Enrollment.CourseID request)) /\
  logs w' = [].
Proof.
  intros Hst Hload Hrun.
  unfold_service. rewrite Hload, Hst in Hrun.
  cbn [db sc calls logs app failed] in Hrun.
  destruct (SetPendingEnrollment store d _ _) as [err d'].
  finish_run Hrun. cbn [fst snd]. repeat split.
Qed.

(** X3.  When the enrollment cannot be loaded, [updateEnrollment] returns
    the store's error whatever status is requested; the failed query is its
    only call, and the store and the SCM are left as they were. *)
Theorem updateEnrollment_not_loaded d s request err out w' :
  GetEnrollmentByCourseAndUser store d (pb.Enrollment.CourseID request)
    (pb.Enrollment.UserID request) = Err err ->
  update request (start d s) = (out, w') ->
  out = Returns (Some err) /\
  calls w' =
    [ {| call := DB_GetEnrollmentByCourseAndUser
                   (pb.Enrollment.CourseID request)
                   (pb.Enrollment.UserID request);
         failure := Some err |} ] /\
  db w' = d /\ sc w' = s.
Proof.
  intros Hload Hrun.
  unfold_service. rewrite Hload in Hrun.
  finish_run Hrun. repeat split.
Qed.

(** X4.  In every run of [updateEnrollment], whatever the request, the store
    and the SCM answer, no SCM call is made after a store write: what the
    store records never runs ahead of the SCM. *)
Theorem updateEnrollment_scm_before_store d (s : SC) request :
  scm_before_store_writes (calls (snd (update request (start d s)))).
Proof.
  destruct (update request (start d s)) as [out w'] eqn:Hrun. cbn [snd].
  unfold_service. exec_in Hrun.
  all: finish_run Hrun.
  all: cbn [scm_before_store_writes call is_store_write is_scm_call].
  all: repeat split; try discriminate; intros; repeat constructor.
Qed.

(** X5.  Every store write of a run is the one the request asks for: a
    status is written only if it is the requested status, for the requested
    user and course (EnrollTeacher: for the user and course of the loaded
    enrollment); a repository record is written only on a STUDENT
    transition, as a USER repository of the requested user; no enrollment is
    ever created. *)
Theorem updateEnrollment_writes_what_is_requested d (s : SC) request :
  Forall
    (fun ev =>
       match call ev with
       | DB_RejectEnrollment uid cid =>
         pb.Enrollment.Status request = pb.Enrollment_REJECTED /\
         uid = pb.Enrollment.UserID request /\
         cid = pb.Enrollment.CourseID request
       | DB_SetPendingEnrollment uid cid =>
         pb.Enrollment.Status request = pb.Enrollment_PENDING /\
         uid = pb.Enrollment.UserID request /\
         cid = pb.Enrollment.CourseID request
       | DB_EnrollStudent uid cid =>
         pb.Enrollment.Status request = pb.Enrollment_STUDENT /\
         uid = pb.Enrollment.UserID request /\
         cid = pb.Enrollment.CourseID request
       | DB_EnrollTeacher uid cid =>
         pb.Enrollment.Status request = pb.Enrollment_TEACHER /\
         exists enrollment u c,
           GetEnrollmentByCourseAndUser store d
             (pb.Enrollment.CourseID request) (pb.Enrollment.UserID request)
           = Ok enrollment /\
           pb.Enrollment.User enrollment = Some u /\
           pb.Enrollment.Course enrollment = Some c /\
           uid = pb.User.ID u /\ cid = pb.Course.ID c
       | DB_CreateRepository repo =>
         pb.Enrollment.Status request = pb.Enrollment_STUDENT /\
         pb.Repository.UserID repo = pb.Enrollment.UserID request /\
         pb.Repository.RepoType repo = pb.Repository_USER
       | DB_CreateEnrollment _ => False
       | _ => True
       end)
    (calls (snd (update request (start d s)))).
Proof.
  destruct (update request (start d s)) as [out w'] eqn:Hrun. cbn [snd].
  unfold_service. exec_in Hrun.
  all: finish_run Hrun.
  all: repeat constructor; cbn [call]; eauto 10.
Qed.

(** X6.  No call is made after a call that failed: in every run, all calls
    but the last one succeeded. *)
Theorem updateEnrollment_stops_at_first_failure d (s : SC) request :
  Forall (fun ev => failure ev = None)
         (removelast (calls (snd (update request (start d s))))).
Proof.
  destruct (update request (start d s)) as [out w'] eqn:Hrun. cbn [snd].
  unfold_service. exec_in Hrun.
  all: finish_run Hrun.
  all: cbn [removelast]; repeat constructor.
Qed.

(** X7.  [updateEnrollment] reports success only after it persisted the
    requested status: when it returns no error, every call of the run
    succeeded and the last call is the store write of the requested
    status. *)
Theorem updateEnrollment_success_is_persisted d (s : SC) request :
  fst (update request (start d s)) = Returns None ->
  Forall (fun ev => failure ev = None)
         (calls (snd (update request (start d s)))) /\
  exists before ev,
    calls (snd (update request (start d s))) = before ++ [ev] /\
    written_status (call ev) = Some (pb.Enrollment.Status request).
Proof.
  destruct (update request (start d s)) as [out w'] eqn:Hrun. cbn [fst snd].
  intros Hout. subst out.
  unfold_service. exec_in Hrun.
  all: finish_run Hrun.
  all: split; [repeat constructor | ].
  all: match goal with
       | |- exists b ev, ?l = b ++ [ev] /\ _ =>
         exists (removelast l), (last l {| call := DB_GetCourse 0;
                                           failure := None |});
         cbn [removelast last app written_status call]
       end.
  all: split; [reflexivity | congruence].
Qed.

(** X8.  [updateEnrollment] invents no error: the error it returns is the
    error of the last call of the run, which failed with it, or, for a
    status other than PENDING, REJECTED, STUDENT and TEACHER, the
    unknown-enrollment error, with no failed call at all. *)
Theorem updateEnrollment_error_provenance d (s : SC) request e :
  fst (update request (start d s)) = Returns (Some e) ->
  (exists before ev,
      calls (snd (update request (start d s))) = before ++ [ev] /\
      failure ev = Some e) \/
  (e = fmt_Errorf "unknown enrollment" /\
   pb.Enrollment.Status request <> pb.Enrollment_PENDING /\
   pb.Enrollment.Status request <> pb.Enrollment_REJECTED /\
   pb.Enrollment.Status request <> pb.Enrollment_STUDENT /\
   pb.Enrollment.Status request <> pb.Enrollment_TEACHER /\
   Forall (fun ev => failure ev = None)
          (calls (snd (update request (start d s))))).
Proof.
  destruct (update request (start d s)) as [out w'] eqn:Hrun. cbn [fst snd].
  intros Hout. subst out.
  unfold_service. exec_in Hrun.
  all: finish_run Hrun.
  all: first
    [ left;
      match goal with
      | |- exists b ev, ?l = b ++ [ev] /\ _ =>
        exists (removelast l), (last l {| call := DB_GetCourse 0;
                                          failure := None |});
        cbn [removelast last app failure]
      end; split; reflexivity
    | right; repeat split; try congruence; repeat constructor ].
Qed.

(** X9.  When the store hands out enrollments with their course and user,
    and the creation of repository and team never returns a nil repository
    together with a nil error, [updateEnrollment] never panics: it
    returns. *)
Theorem updateEnrollment_returns d (s : SC) request :
  (forall enrollment,
      GetEnrollmentByCourseAndUser store d (pb.Enrollment.CourseID request)
        (pb.Enrollment.UserID request) = Ok enrollment ->
      pb.Enrollment.Course enrollment <> None /\
      pb.Enrollment.User enrollment <> None) ->
  (forall s1 course path teamName userNames team s2,
      createRepoAndTeam s1 course path teamName userNames
      <> (None, team, None, s2)) ->
  exists result, fst (update request (start d s)) = Returns result.
Proof.
  intros Hloaded Hcreated.
  destruct (update request (start d s)) as [out w'] eqn:Hrun. cbn [fst].
  unfold_service. exec_in Hrun.
  all: finish_run Hrun.
  all: try (eexists; reflexivity).
  all: try (destruct (Hloaded _ eq_refl); congruence).
  all: match goal with
       | H : createRepoAndTeam _ _ _ _ _ = _ |- _ =>
         destruct (Hcreated _ _ _ _ _ _ _ H)
       end.
Qed.

(** X10.  A TEACHER transition for an enrollment that was loaded without
    its course panics when it reads the course's organization: before any
    SCM call and any store write. *)
Theorem updateEnrollment_teacher_without_course d s request enrollment out w' :
  pb.Enrollment.Status request = pb.Enrollment_TEACHER ->
  GetEnrollmentByCourseAndUser store d (pb.Enrollment.CourseID request)
    (pb.Enrollment.UserID request) = Ok enrollment ->
  pb.Enrollment.Course enrollment = None ->
  update request (start d s) = (out, w') ->
  out = Panics /\
  calls w' =
    [ {| call := DB_GetEnrollmentByCourseAndUser
                   (pb.Enrollment.CourseID request)
                   (pb.Enrollment.UserID request);
         failure := None |} ] /\
  db w' = d /\ sc w' = s.
Proof.
  intros Hst Hload Hcourse Hrun.
  unfold_service. rewrite Hload, Hst, Hcourse in Hrun.
  finish_run Hrun. repeat split.
Qed.

(** X11.  A TEACHER transition for an enrollment that was loaded with its
    course but without its user never persists the status: the SCM is
    called, with an empty user name, and the run then panics when it reads
    the teacher; the store is left as it was. *)
Theorem updateEnrollment_teacher_without_user d s request enrollment c out w' :
  pb.Enrollment.Status request = pb.Enrollment_TEACHER ->
  GetEnrollmentByCourseAndUser store d (pb.Enrollment.CourseID request)
    (pb.Enrollment.UserID request) = Ok enrollment ->
  pb.Enrollment.Course enrollment = Some c ->
  pb.Enrollment.User enrollment = None ->
  update request (start d s) = (out, w') ->
  out = Panics /\
  db w' = d /\
  Forall (fun ev => is_store_write (call ev) = false) (calls w') /\
  exists f rest,
    calls w' =
      {| call := DB_GetEnrollmentByCourseAndUser
                   (pb.Enrollment.CourseID request)
                   (pb.Enrollment.UserID request);
         failure := None |} ::
      {| call := SCM_GetOrganization (pb.Course.OrganizationID c);
         failure := f |} :: rest /\
    Forall (fun ev =>
              match call ev with
              | SCM_UpdateOrgMembership opt =>
                scm.OrgMembership.Username opt = ""
              | SCM_RemoveTeamMember opt | SCM_AddTeamMember opt =>
                scm.TeamMembershipOptions.Username opt = ""
              | _ => False
              end) rest.
Proof.
  intros Hst Hload Hcourse Huser Hrun.
  unfold_service. rewrite Hload, Hst, Hcourse, Huser in Hrun.
  cbn [db sc calls logs fst snd app pb.User.GetLogin] in Hrun.
  exec_in Hrun.
  all: finish_run Hrun.
  all: split; [reflexivity | split; [reflexivity | split ] ].
  all: try (repeat constructor; fail).
  all: do 2 eexists; split; [reflexivity | repeat constructor].
Qed.

(** X12.  [updateReposAndTeams] works on the SCM only: every call it makes
    is an SCM call and the store is left as it was. *)
Theorem updateReposAndTeams_leaves_the_store (d : DB) (s : SC) course login state :
  db (snd (reposAndTeams course login state (start d s))) = d /\
  Forall (fun ev => is_scm_call (call ev) = true)
         (calls (snd (reposAndTeams course login state (start d s)))).
Proof.
  destruct (reposAndTeams course login state (start d s))
    as [out w'] eqn:Hrun. cbn [snd].
  unfold_service. exec_in Hrun.
  all: finish_run Hrun.
  all: split; [reflexivity | repeat constructor].
Qed.

(** X13.  [updateReposAndTeams] panics exactly when it is given no course.
    When it returns, it returns a repository only when the state is STUDENT
    and there is no error: a repository never comes with an error, and a
    TEACHER update, also a successful one, returns no repository. *)
Theorem updateReposAndTeams_repository (d : DB) (s : SC) course login state :
  (fst (reposAndTeams course login state (start d s)) = Panics <->
   course = None) /\
  forall repo err,
    fst (reposAndTeams course login state (start d s)) = Returns (repo, err) ->
    (repo <> None -> state = pb.Enrollment_STUDENT /\ err = None) /\
    (state = pb.Enrollment_TEACHER -> repo = None).
Proof.
  destruct (reposAndTeams course login state (start d s))
    as [out w'] eqn:Hrun. cbn [fst].
  unfold_service. exec_in Hrun.
  all: finish_run Hrun.
  all: split; [ split; congruence | ].
  all: intros repo0 err0 Hret; try discriminate.
  all: injection Hret as <- <-.
  all: split; [ intros H | intros H ]; try congruence.
  all: split; congruence.
Qed.

(** X14.  For a state other than STUDENT and TEACHER,
    [updateReposAndTeams] still resolves the organization, which is its
    only call, and then fails: with the SCM's error, or with the
    unknown-enrollment error when the organization was resolved. *)
Theorem updateReposAndTeams_unknown_state (d : DB) (s : SC) c login state out w' :
  state <> pb.Enrollment_STUDENT ->
  state <> pb.Enrollment_TEACHER ->
  reposAndTeams (Some c) login state (start d s) = (out, w') ->
  exists e f,
    out = Returns (None, Some e) /\
    calls w' = [ {| call := SCM_GetOrganization (pb.Course.OrganizationID c);
                    failure := f |} ] /\
    (f = None -> e = fmt_Errorf "unknown enrollment") /\
    (forall e', f = Some e' -> e = e').
Proof.
  intros Hs Ht Hrun.
  unfold_service. exec_in Hrun.
  all: try congruence.
  all: finish_run Hrun.
  all: do 2 eexists; repeat split; congruence.
Qed.

End EnrollmentProperties.

(** ** Further properties of the queries, of [updateCourse] and of the
    GitLab adapter *)

(** Pushing the elements that pass a test, one by one, on a list is
    filtering. *)
Lemma fold_left_push_filter {A : Type} (p : A -> bool) (l acc : list A) :
  fold_left (fun acc a => if p a then acc ++ [a] else acc) l acc
  = acc ++ filter p l.
Proof.
  revert acc.
  induction l as [| a l IH]; intros acc; cbn [fold_left filter].
  - now rewrite app_nil_r.
  - rewrite IH. destruct (p a); [now rewrite <- app_assoc | reflexivity].
Qed.

(** Pushing the image of every element, one by one, on a list is mapping. *)
Lemma fold_left_push_map {A B : Type} (f : A -> B) (l : list A)
    (acc : list B) :
  fold_left (fun acc a => acc ++ [f a]) l acc = acc ++ map f l.
Proof.
  revert acc.
  induction l as [| a l IH]; intros acc; cbn [fold_left map].
  - now rewrite app_nil_r.
  - rewrite IH. now rewrite <- app_assoc.
Qed.

Section QueryProperties.

Context {DB SC : Type}.
Variable store : Database DB.
Variable adapter : scm.SCM SC.
Variable UpdateCourse : DB -> pb.Course.t -> option error * DB.
Variable Sprintf_found : nat -> pb.Repository.t -> string.

(** X15.  With FilterOutGroupMembers set and a store that answers,
    [getEnrollmentsByCourse] returns an enrollment exactly when the store
    listed it and its GroupID is 0; filtering the answer for two lists of
    enrollments one after the other gives the answer for the whole list. *)
Theorem getEnrollmentsByCourse_members d (s : SC) request enrollments :
  pb.EnrollmentsRequest.FilterOutGroupMembers request = true ->
  GetEnrollmentsByCourse store d (pb.EnrollmentsRequest.CourseID request)
    (pb.EnrollmentsRequest.States request) = Ok enrollments ->
  exists result,
    fst (getEnrollmentsByCourse store request (start d s))
    = Returns (Ok {| pb.Enrollments.Enrollments := result |}) /\
    (forall e, In e result <->
               In e enrollments /\ pb.Enrollment.GroupID e = 0%N) /\
    (forall l1 l2, enrollments = l1 ++ l2 ->
       result = enrollmentsWithoutGroups l1 ++ enrollmentsWithoutGroups l2).
Proof.
  intros Hflag Hstore.
  exists (enrollmentsWithoutGroups enrollments). split; [ | split ].
  - unfold_service. now rewrite Hstore, Hflag.
  - intros e. rewrite enrollmentsWithoutGroups_filter, filter_In.
    now rewrite N.eqb_eq.
  - intros l1 l2 ->. rewrite !enrollmentsWithoutGroups_filter.
    apply filter_app.
Qed.

(** X16.  The answer of [getRepositoryURL] depends on the current user only
    for the type USER, and then only through the user's ID: for any other
    type, or for two users with the same ID (no user at all counts as ID
    0), the run is the same. *)
Theorem getRepositoryURL_depends_on_user_id d (s : SC) user1 user2 request :
  pb.is_Repository_USER (pb.RepositoryRequest.Type_ request) = false \/
  pb.User.GetID user1 = pb.User.GetID user2 ->
  getRepositoryURL store Sprintf_found user1 request (start d s)
  = getRepositoryURL store Sprintf_found user2 request (start d s).
Proof.
  intros [Htype | Hid]; unfold getRepositoryURL.
  - now rewrite Htype.
  - now rewrite Hid.
Qed.

(** X17.  [getRepositoryURL] only reads: it leaves the store and the SCM as
    they were, makes no SCM call and no store write, and asks for the
    repositories only after the course was loaded. *)
Theorem getRepositoryURL_reads_only d (s : SC) currentUser request :
  db (snd (getRepositoryURL store Sprintf_found currentUser request
             (start d s))) = d /\
  sc (snd (getRepositoryURL store Sprintf_found currentUser request
             (start d s))) = s /\
  Forall (fun ev => is_store_write (call ev) = false /\
                    is_scm_call (call ev) = false)
         (calls (snd (getRepositoryURL store Sprintf_found currentUser request
                        (start d s)))) /\
  (failed (GetCourse store d (pb.RepositoryRequest.CourseID request)) <> None ->
   List.length (calls (snd (getRepositoryURL store Sprintf_found currentUser
                              request (start d s)))) = 1%nat).
Proof.
  destruct (getRepositoryURL store Sprintf_found currentUser request
              (start d s)) as [out w'] eqn:Hrun. cbn [snd].
  unfold_service.
  unfold pb.RepositoryRequest.GetCourseID, pb.RepositoryRequest.GetType in Hrun.
  exec_in Hrun.
  all: finish_run Hrun.
  all: repeat split; repeat constructor.
  all: cbn [failed]; congruence.
Qed.

(** X18.  [updateCourse] updates the store, or reports success, only when
    the course exists in the store and the SCM resolves the organization of
    the request; then its result is the result of the store's UpdateCourse.
    When the course does not exist, the SCM is not asked at all. *)
Theorem updateCourse_guarded d s request err d' s' :
  updateCourse store adapter UpdateCourse d s request = (err, d', s') ->
  (d' <> d \/ err = None ->
   exists course org,
     GetCourse store d (pb.Course.ID request) = Ok course /\
     scm.GetOrganization adapter s (pb.Course.OrganizationID request)
     = (Ok org, s') /\
     UpdateCourse d request = (err, d')) /\
  (forall e, GetCourse store d (pb.Course.ID request) = Err e ->
             err = Some e /\ d' = d /\ s' = s) /\
  (forall e s1,
      scm.GetOrganization adapter s (pb.Course.OrganizationID request)
      = (Err e, s1) ->
      d' = d).
Proof.
  intros Hrun. unfold updateCourse in Hrun.
  destruct (GetCourse store d (pb.Course.ID request)) as [course | e0].
  - destruct (scm.GetOrganization adapter s _) as [[org | e1] s1].
    + destruct (UpdateCourse d request) as [err0 d0].
      injection Hrun as <- <- <-.
      repeat split; intros; try congruence; eauto.
    + injection Hrun as <- <- <-.
      repeat split; intros; try congruence.
      destruct H; congruence.
  - injection Hrun as <- <- <-.
    repeat split; intros; try congruence.
    destruct H; congruence.
Qed.

End QueryProperties.

Section GitlabListing.

Context {C : Type}.
Variable client : gitlab.GroupsService C.

(** X19.  [ListDirectories] returns one directory for each group the client
    lists, in the client's order, with the group's ID and name; for no group
    it returns no directory.  The client's state is passed on. *)
Theorem ListDirectories_one_per_group (c : C) :
  ListDirectories client c =
  (match fst (gitlab.ListGroups client c) with
   | Ok groups =>
     Ok (map (fun group =>
                {| scm.Directory.ID := gitlab.Group.ID group;
                   scm.Directory.Name := gitlab.Group.Name group |})
             groups)
   | Err err => Err err
   end,
   snd (gitlab.ListGroups client c)).
Proof.
  unfold ListDirectories.
  destruct (gitlab.ListGroups client c) as [[groups | err] c'];
    cbn [fst snd]; [ | reflexivity ].
  now rewrite fold_left_push_map.
Qed.

End GitlabListing.

(** ** Properties of the member view *)

Lemma prefix_refl (s : string) : String.prefix s s = true.
Proof.
  induction s as [| ch s IH]; cbn; [reflexivity | ].
  destruct (Ascii.ascii_dec ch ch); [assumption | congruence].
Qed.

(** A string occurs in itself, and the empty string in every string, at
    position 0. *)
Lemma indexOf_self (s : string) : MemberView.indexOf s s = 0%Z.
Proof.
  unfold MemberView.indexOf.
  destruct s as [| ch s]; [reflexivity | ].
  cbn [String.index]. now rewrite prefix_refl.
Qed.

Lemma indexOf_empty (s : string) : MemberView.indexOf s "" = 0%Z.
Proof.
  unfold MemberView.indexOf. now destruct s.
Qed.

Section ViewProperties.

Variable Link : Type.
Variable state : Link -> pb.Enrollment_UserStatus.
Variable toLowerCase : string -> string.

Lemma filtered_filter query (users : list (MemberView.IUserRelation Link)) :
  MemberView.filtered toLowerCase query users
  = filter (MemberView.found toLowerCase query) users.
Proof.
  unfold MemberView.filtered. now rewrite fold_left_push_filter.
Qed.

(** X20.  Whatever link is clicked, [handleAction] asks for at most one
    change of state, for the clicked user, and only to STUDENT, REJECTED,
    TEACHER or PENDING, the statuses [updateEnrollment] handles; it
    refreshes the navigation exactly once, last. *)
Theorem handleAction_requests confirm
    (userRel : MemberView.IUserRelation Link) l :
  exists requests,
    MemberView.handleAction confirm userRel l
    = requests ++ [MemberView.refresh] /\
    Forall
      (fun e =>
         match e with
         | MemberView.changeUserState lk st =>
           lk = MemberView.link userRel /\
           (st = pb.Enrollment_STUDENT \/ st = pb.Enrollment_REJECTED \/
            st = pb.Enrollment_TEACHER \/ st = pb.Enrollment_PENDING)
         | MemberView.confirmDialog _ => True
         | MemberView.refresh => False
         end) requests /\
    (List.length
       (filter (fun e => match e with
                         | MemberView.changeUserState _ _ => true
                         | _ => false
                         end) requests) <= 1)%nat.
Proof.
  unfold MemberView.handleAction.
  destruct (MemberView.uri l) as [u | ].
  - destruct (String.eqb u "accept"); [ | destruct (String.eqb u "reject");
      [ | destruct (String.eqb u "teacher");
          [ destruct (confirm _) | destruct (String.eqb u "remove") ] ] ].
    all: eexists; split; [reflexivity | ].
    all: split; [ | cbn; lia].
    all: repeat (apply Forall_cons || apply Forall_nil).
    all: first [exact I | split; [reflexivity | auto 6] ].
  - exists []. repeat split; [constructor | cbn; lia].
Qed.

(** X21.  [handleAction] asks to make a user a teacher only for the link
    "teacher", and only when the confirmation dialog, shown with the
    warning that names the user, was answered with yes. *)
Theorem handleAction_teacher_needs_confirmation confirm
    (userRel : MemberView.IUserRelation Link) l lk :
  In (MemberView.changeUserState lk pb.Enrollment_TEACHER)
     (MemberView.handleAction confirm userRel l) ->
  MemberView.uri l = Some "teacher" /\
  confirm (MemberView.teacherWarning userRel) = true /\
  In (MemberView.confirmDialog (MemberView.teacherWarning userRel))
     (MemberView.handleAction confirm userRel l).
Proof.
  unfold MemberView.handleAction.
  destruct (MemberView.uri l) as [u | ].
  - destruct (String.eqb u "accept") eqn:Ea;
      [ | destruct (String.eqb u "reject") eqn:Er;
          [ | destruct (String.eqb u "teacher") eqn:Et;
              [ destruct (confirm _) eqn:Ec
              | destruct (String.eqb u "remove") ] ] ].
    all: cbn [app In]; intros H.
    all: repeat (destruct H as [H | H]; try discriminate); try contradiction.
    apply String.eqb_eq in Et. subst u. auto.
  - cbn [app In]. intros [H | []]. discriminate.
Qed.

(** X22.  The row of a registered user who is a teacher offers no action:
    whatever link of that row is clicked, and whatever the dialog would
    answer, [handleAction] changes no state and only refreshes. *)
Theorem teacher_row_offers_no_action
    (userRel : MemberView.IUserRelation Link) :
  state (MemberView.link userRel) = pb.Enrollment_TEACHER ->
  Forall (fun l => forall confirm,
              MemberView.handleAction confirm userRel l
              = [MemberView.refresh])
         (MemberView.renderUserView_links state userRel).
Proof.
  intros Hst. unfold MemberView.renderUserView_links. rewrite Hst.
  repeat constructor.
Qed.

(** X23.  No link of the view is dead: every link that the pending rows,
    the rows of registered users and the rows of rejected users offer with
    a uri makes [handleAction] ask for a change of the clicked user's state
    (for "teacher": once the dialog is confirmed). *)
Theorem offered_links_are_handled (userRel : MemberView.IUserRelation Link) :
  Forall
    (fun l =>
       match MemberView.uri l with
       | Some _ =>
         exists st,
           In (MemberView.changeUserState (MemberView.link userRel) st)
              (MemberView.handleAction (fun _ => true) userRel l)
       | None => True
       end)
    (MemberView.pendingActions
     ++ MemberView.renderUserView_links state userRel
     ++ MemberView.renderRejectedView_links state userRel).
Proof.
  unfold MemberView.renderUserView_links, MemberView.renderRejectedView_links.
  destruct (MemberView.UserStatus_eqb _ pb.Enrollment_TEACHER);
    destruct (MemberView.UserStatus_eqb _ pb.Enrollment_REJECTED).
  all: repeat constructor; cbn; eauto.
Qed.

(** X24.  A search never depends on the search before it: [handleSearch]
    leaves in each list of the state the users of the corresponding list of
    the properties that the query finds, in their order, so no user moves
    between the lists and a new search starts again from all users. *)
Theorem handleSearch_filters_the_properties
    (props : MemberView.IUserViewerProps Link) query st :
  MemberView.handleSearch toLowerCase props query st =
  {| MemberView.acceptedUsers :=
       filter (MemberView.found toLowerCase (toLowerCase query))
              (MemberView.props_acceptedUsers props);
     MemberView.pendingUsers :=
       filter (MemberView.found toLowerCase (toLowerCase query))
              (MemberView.props_pendingUsers props);
     MemberView.rejectedUsers :=
       filter (MemberView.found toLowerCase (toLowerCase query))
              (MemberView.props_rejectedUsers props) |} /\
  forall query',
    MemberView.handleSearch toLowerCase props query
      (MemberView.handleSearch toLowerCase props query' st)
    = MemberView.handleSearch toLowerCase props query
        (MemberView.constructor props).
Proof.
  unfold MemberView.handleSearch. cbn.
  rewrite !filtered_filter. split; reflexivity.
Qed.

(** X25.  Searching for nothing shows everybody: when the lower case of the
    empty string is the empty string, [handleSearch] with the empty query
    puts the lists of the properties back into the state. *)
Theorem handleSearch_empty_query
    (props : MemberView.IUserViewerProps Link) st :
  toLowerCase "" = "" ->
  MemberView.handleSearch toLowerCase props "" st
  = MemberView.constructor props.
Proof.
  intros Hlower.
  assert (Hall : forall users : list (MemberView.IUserRelation Link),
             MemberView.filtered toLowerCase "" users = users).
  { intros users. rewrite filtered_filter.
    induction users as [| u users IH]; [reflexivity | ].
    cbn [filter]. unfold MemberView.found at 1.
    rewrite !indexOf_empty. cbn. now rewrite IH. }
  unfold MemberView.handleSearch, MemberView.constructor. cbn.
  rewrite Hlower, !Hall. reflexivity.
Qed.

(** X26.  Searching for a user's full name, or full student id, in any
    mix of upper and lower case that has the same lower case, finds that
    user in the list the user is in. *)
Theorem handleSearch_finds_exact_match
    (props : MemberView.IUserViewerProps Link) st query u :
  toLowerCase query = toLowerCase (MemberView.getName (MemberView.user u)) \/
  toLowerCase query
  = toLowerCase (MemberView.getStudentid (MemberView.user u)) ->
  (In u (MemberView.props_acceptedUsers props) ->
   In u (MemberView.acceptedUsers
           (MemberView.handleSearch toLowerCase props query st))) /\
  (In u (MemberView.props_pendingUsers props) ->
   In u (MemberView.pendingUsers
           (MemberView.handleSearch toLowerCase props query st))) /\
  (In u (MemberView.props_rejectedUsers props) ->
   In u (MemberView.rejectedUsers
           (MemberView.handleSearch toLowerCase props query st))).
Proof.
  intros Hquery.
  assert (Hfound : MemberView.found toLowerCase (toLowerCase query) u = true).
  { unfold MemberView.found.
    destruct Hquery as [-> | ->]; rewrite indexOf_self; cbn;
      [reflexivity | apply orb_true_r]. }
  unfold MemberView.handleSearch. cbn. rewrite !filtered_filter.
  repeat split; intros Hin; apply filter_In; auto.
Qed.

End ViewProperties.

(** ** The further properties on concrete inputs *)

(** X1 on a run: alice, pending, is rejected. *)
Lemma updateEnrollment_rejected_witness :
  fst (double.run double.noFailure pb.Enrollment_REJECTED double.pendingStore)
  = Returns (fst (RejectEnrollment double.store double.pendingStore 42 7)) /\
  calls (snd (double.run double.noFailure pb.Enrollment_REJECTED
                         double.pendingStore))
  = [ {| call := DB_GetEnrollmentByCourseAndUser 7 42; failure := None |};
      {| call := DB_RejectEnrollment 42 7;
         failure := fst (RejectEnrollment double.store double.pendingStore
                                          42 7) |} ] /\
  sc (snd (double.run double.noFailure pb.Enrollment_REJECTED
                      double.pendingStore)) = [] /\
  db (snd (double.run double.noFailure pb.Enrollment_REJECTED
                      double.pendingStore))
  = snd (RejectEnrollment double.store double.pendingStore 42 7) /\
  logs (snd (double.run double.noFailure pb.Enrollment_REJECTED
                        double.pendingStore)) = [].
Proof.
  apply (updateEnrollment_rejected
           double.store (double.adapter double.noFailure)
           (double.createRepoAndTeam double.noFailure) double.StudentRepoName
           double.pendingStore [] (double.request pb.Enrollment_REJECTED)
           (double.enrolled pb.Enrollment_PENDING 0)).
  - reflexivity.
  - reflexivity.
  - reflexivity.
Defined.

(** X2 on a run: alice, rejected, is set pending again. *)
Lemma updateEnrollment_pending_witness :
  fst (double.run double.noFailure pb.Enrollment_PENDING double.rejectedStore)
  = Returns (fst (SetPendingEnrollment double.store double.rejectedStore
                                       42 7)) /\
  calls (snd (double.run double.noFailure pb.Enrollment_PENDING
                         double.rejectedStore))
  = [ {| call := DB_GetEnrollmentByCourseAndUser 7 42; failure := None |};
      {| call := DB_SetPendingEnrollment 42 7;
         failure := fst (SetPendingEnrollment double.store
                           double.rejectedStore 42 7) |} ] /\
  sc (snd (double.run double.noFailure pb.Enrollment_PENDING
                      double.rejectedStore)) = [] /\
  db (snd (double.run double.noFailure pb.Enrollment_PENDING
                      double.rejectedStore))
  = snd (SetPendingEnrollment double.store double.rejectedStore 42 7) /\
  logs (snd (double.run double.noFailure pb.Enrollment_PENDING
                        double.rejectedStore)) = [].
Proof.
  apply (updateEnrollment_pending
           double.store (double.adapter double.noFailure)
           (double.createRepoAndTeam double.noFailure) double.StudentRepoName
           double.rejectedStore [] (double.request pb.Enrollment_PENDING)
           (double.enrolled pb.Enrollment_REJECTED 0)).
  - reflexivity.
  - reflexivity.
  - reflexivity.
Defined.

(** X3 on a run: alice has no enrollment. *)
Lemma updateEnrollment_not_loaded_witness :
  fst (double.run double.noFailure pb.Enrollment_STUDENT double2.emptyStore)
  = Returns (Some double.notFound) /\
  calls (snd (double.run double.noFailure pb.Enrollment_STUDENT
                         double2.emptyStore))
  = [ {| call := DB_GetEnrollmentByCourseAndUser 7 42;
         failure := Some double.notFound |} ] /\
  db (snd (double.run double.noFailure pb.Enrollment_STUDENT
                      double2.emptyStore)) = double2.emptyStore /\
  sc (snd (double.run double.noFailure pb.Enrollment_STUDENT
                      double2.emptyStore)) = [].
Proof.
  apply (updateEnrollment_not_loaded
           double.store (double.adapter double.noFailure)
           (double.createRepoAndTeam double.noFailure) double.StudentRepoName
           double2.emptyStore [] (double.request pb.Enrollment_STUDENT)
           double.notFound).
  - reflexivity.
  - reflexivity.
Defined.

(** X7 on a run: alice, pending and without a repository, is accepted. *)
Lemma updateEnrollment_success_is_persisted_witness :
  Forall (fun ev => failure ev = None)
         (calls (snd (double.run double.noFailure pb.Enrollment_STUDENT
                                 double.pendingStore))) /\
  exists before ev,
    calls (snd (double.run double.noFailure pb.Enrollment_STUDENT
                           double.pendingStore)) = before ++ [ev] /\
    written_status (call ev) = Some pb.Enrollment_STUDENT.
Proof.
  apply (updateEnrollment_success_is_persisted
           double.store (double.adapter double.noFailure)
           (double.createRepoAndTeam double.noFailure) double.StudentRepoName
           double.pendingStore [] (double.request pb.Enrollment_STUDENT)).
  reflexivity.
Defined.

(** X8 on a run: the creation of alice's repository and team fails. *)
Lemma updateEnrollment_error_provenance_witness :
  (exists before ev,
      calls (snd (double.run
                    (double.failing "createRepoAndTeam" double.http404)
                    pb.Enrollment_STUDENT double.pendingStore))
      = before ++ [ev] /\
      failure ev = Some double.http404) \/
  (double.http404 = fmt_Errorf "unknown enrollment" /\
   pb.Enrollment_STUDENT <> pb.Enrollment_PENDING /\
   pb.Enrollment_STUDENT <> pb.Enrollment_REJECTED /\
   pb.Enrollment_STUDENT <> pb.Enrollment_STUDENT /\
   pb.Enrollment_STUDENT <> pb.Enrollment_TEACHER /\
   Forall (fun ev => failure ev = None)
          (calls (snd (double.run
                         (double.failing "createRepoAndTeam" double.http404)
                         pb.Enrollment_STUDENT double.pendingStore)))).
Proof.
  apply (updateEnrollment_error_provenance
           double.store
           (double.adapter (double.failing "createRepoAndTeam" double.http404))
           (double.createRepoAndTeam
              (double.failing "createRepoAndTeam" double.http404))
           double.StudentRepoName
           double.pendingStore [] (double.request pb.Enrollment_STUDENT)).
  reflexivity.
Defined.

(** X9 on a run: alice, loaded with her course and user, is promoted. *)
Lemma updateEnrollment_returns_witness :
  exists result,
    fst (double.run double.noFailure pb.Enrollment_TEACHER double.pendingStore)
    = Returns result.
Proof.
  apply (updateEnrollment_returns
           double.store (double.adapter double.noFailure)
           (double.createRepoAndTeam double.noFailure) double.StudentRepoName
           double.pendingStore [] (double.request pb.Enrollment_TEACHER)).
  - intros enrollment Hload. vm_compute in Hload. injection Hload as <-.
    split; discriminate.
  - intros s1 course path teamName userNames team s2.
    unfold double.createRepoAndTeam. cbn. discriminate.
Defined.

(** X10 on a run: the stored enrollment has no course. *)
Lemma updateEnrollment_teacher_without_course_witness :
  fst (double.run double.noFailure pb.Enrollment_TEACHER double2.withoutCourse)
  = Panics /\
  calls (snd (double.run double.noFailure pb.Enrollment_TEACHER
                         double2.withoutCourse))
  = [ {| call := DB_GetEnrollmentByCourseAndUser 7 42; failure := None |} ] /\
  db (snd (double.run double.noFailure pb.Enrollment_TEACHER
                      double2.withoutCourse)) = double2.withoutCourse /\
  sc (snd (double.run double.noFailure pb.Enrollment_TEACHER
                      double2.withoutCourse)) = [].
Proof.
  apply (updateEnrollment_teacher_without_course
           double.store (double.adapter double.noFailure)
           (double.createRepoAndTeam double.noFailure) double.StudentRepoName
           double2.withoutCourse [] (double.request pb.Enrollment_TEACHER)
           {| pb.Enrollment.CourseID := 7;
              pb.Enrollment.UserID := 42;
              pb.Enrollment.GroupID := 0;
              pb.Enrollment.Status := pb.Enrollment_STUDENT;
              pb.Enrollment.User := Some double.alice;
              pb.Enrollment.Course := None |}).
  - reflexivity.
  - reflexivity.
  - reflexivity.
  - reflexivity.
Defined.

(** X11 on a run: the stored enrollment has no user. *)
Lemma updateEnrollment_teacher_without_user_witness :
  fst (double.run double.noFailure pb.Enrollment_TEACHER double2.withoutUser)
  = Panics /\
  db (snd (double.run double.noFailure pb.Enrollment_TEACHER
                      double2.withoutUser)) = double2.withoutUser /\
  Forall (fun ev => is_store_write (call ev) = false)
         (calls (snd (double.run double.noFailure pb.Enrollment_TEACHER
                                 double2.withoutUser))) /\
  exists f rest,
    calls (snd (double.run double.noFailure pb.Enrollment_TEACHER
                           double2.withoutUser))
    = {| call := DB_GetEnrollmentByCourseAndUser 7 42; failure := None |} ::
      {| call := SCM_GetOrganization 100; failure := f |} :: rest /\
    Forall (fun ev =>
              match call ev with
              | SCM_UpdateOrgMembership opt =>
                scm.OrgMembership.Username opt = ""
              | SCM_RemoveTeamMember opt | SCM_AddTeamMember opt =>
                scm.TeamMembershipOptions.Username opt = ""
              | _ => False
              end) rest.
Proof.
  apply (updateEnrollment_teacher_without_user
           double.store (double.adapter double.noFailure)
           (double.createRepoAndTeam double.noFailure) double.StudentRepoName
           double2.withoutUser [] (double.request pb.Enrollment_TEACHER)
           {| pb.Enrollment.CourseID := 7;
              pb.Enrollment.UserID := 42;
              pb.Enrollment.GroupID := 0;
              pb.Enrollment.Status := pb.Enrollment_STUDENT;
              pb.Enrollment.User := None;
              pb.Enrollment.Course := Some double.course7 |}
           double.course7).
  - reflexivity.
  - reflexivity.
  - reflexivity.
  - reflexivity.
  - reflexivity.
Defined.

(** X14 on a run: [updateReposAndTeams] is given the state NONE. *)
Lemma updateReposAndTeams_unknown_state_witness :
  exists e f,
    fst (updateReposAndTeams (double.adapter double.noFailure)
           (double.createRepoAndTeam double.noFailure) double.StudentRepoName
           (Some double.course7) "alice" pb.Enrollment_NONE
           (start double.pendingStore []))
    = Returns (None, Some e) /\
    calls (snd (updateReposAndTeams (double.adapter double.noFailure)
                  (double.createRepoAndTeam double.noFailure)
                  double.StudentRepoName
                  (Some double.course7) "alice" pb.Enrollment_NONE
                  (start double.pendingStore [])))
    = [ {| call := SCM_GetOrganization 100; failure := f |} ] /\
    (f = None -> e = fmt_Errorf "unknown enrollment") /\
    (forall e', f = Some e' -> e = e').
Proof.
  apply (updateReposAndTeams_unknown_state
           (double.adapter double.noFailure)
           (double.createRepoAndTeam double.noFailure) double.StudentRepoName
           double.pendingStore [] double.course7 "alice" pb.Enrollment_NONE).
  - discriminate.
  - discriminate.
  - reflexivity.
Defined.

(** X15 on a run: of the three enrollments of course 7, bob is in a
    group. *)
Lemma getEnrollmentsByCourse_members_witness :
  exists result,
    fst (getEnrollmentsByCourse double.store double2.withoutGroups
           (start double2.groupStore (@nil string)))
    = Returns (Ok {| pb.Enrollments.Enrollments := result |}) /\
    (forall e, In e result <->
               In e [double.enrolled pb.Enrollment_STUDENT 0;
                     double2.bob; double2.carol] /\
               pb.Enrollment.GroupID e = 0%N) /\
    (forall l1 l2,
        [double.enrolled pb.Enrollment_STUDENT 0; double2.bob; double2.carol]
        = l1 ++ l2 ->
        result = enrollmentsWithoutGroups l1 ++ enrollmentsWithoutGroups l2).
Proof.
  apply (getEnrollmentsByCourse_members
           double.store double2.groupStore (@nil string)
           double2.withoutGroups).
  - reflexivity.
  - reflexivity.
Defined.

(** X16 on a run: alice's repository is asked for by nobody and by a user
    whose ID is 0. *)
Lemma getRepositoryURL_depends_on_user_id_witness :
  getRepositoryURL double.store double.Sprintf_found None
    {| pb.RepositoryRequest.CourseID := 7;
       pb.RepositoryRequest.Type_ := pb.Repository_USER |}
    (start double.rejectedStore (@nil string))
  = getRepositoryURL double.store double.Sprintf_found
      (Some {| pb.User.ID := 0; pb.User.Login := "nobody" |})
      {| pb.RepositoryRequest.CourseID := 7;
         pb.RepositoryRequest.Type_ := pb.Repository_USER |}
      (start double.rejectedStore (@nil string)).
Proof.
  apply (getRepositoryURL_depends_on_user_id
           double.store double.Sprintf_found double.rejectedStore
           (@nil string) None
           (Some {| pb.User.ID := 0; pb.User.Login := "nobody" |})
           {| pb.RepositoryRequest.CourseID := 7;
              pb.RepositoryRequest.Type_ := pb.Repository_USER |}).
  right. reflexivity.
Defined.

(** X18 on a run: course 7 is moved to organization 200. *)
Lemma updateCourse_guarded_witness :
  (snd (fst (updateCourse double.store (double.adapter double.noFailure)
               double2.UpdateCourse double.pendingStore []
               double2.course7moved)) <> double.pendingStore \/
   fst (fst (updateCourse double.store (double.adapter double.noFailure)
               double2.UpdateCourse double.pendingStore []
               double2.course7moved)) = None ->
   exists course org,
     GetCourse double.store double.pendingStore 7 = Ok course /\
     scm.GetOrganization (double.adapter double.noFailure) [] 200
     = (Ok org,
        snd (updateCourse double.store (double.adapter double.noFailure)
               double2.UpdateCourse double.pendingStore []
               double2.course7moved)) /\
     double2.UpdateCourse double.pendingStore double2.course7moved
     = fst (updateCourse double.store (double.adapter double.noFailure)
              double2.UpdateCourse double.pendingStore []
              double2.course7moved)) /\
  (forall e, GetCourse double.store double.pendingStore 7 = Err e ->
             fst (fst (updateCourse double.store
                         (double.adapter double.noFailure)
                         double2.UpdateCourse double.pendingStore []
                         double2.course7moved)) = Some e /\
             snd (fst (updateCourse double.store
                         (double.adapter double.noFailure)
                         double2.UpdateCourse double.pendingStore []
                         double2.course7moved)) = double.pendingStore /\
             snd (updateCourse double.store (double.adapter double.noFailure)
                    double2.UpdateCourse double.pendingStore []
                    double2.course7moved) = []) /\
  (forall e s1,
      scm.GetOrganization (double.adapter double.noFailure) [] 200
      = (Err e, s1) ->
      snd (fst (updateCourse double.store (double.adapter double.noFailure)
                  double2.UpdateCourse double.pendingStore []
                  double2.course7moved)) = double.pendingStore).
Proof.
  apply (updateCourse_guarded
           double.store (double.adapter double.noFailure) double2.UpdateCourse
           double.pendingStore [] double2.course7moved).
  reflexivity.
Defined.

(** X21 on a click: "Make Teacher" is clicked for Ada and confirmed. *)
Lemma handleAction_teacher_needs_confirmation_witness :
  MemberView.uri double2.teacherLink = Some "teacher" /\
  double2.yes (MemberView.teacherWarning double2.ada) = true /\
  In (MemberView.confirmDialog (MemberView.teacherWarning double2.ada))
     (MemberView.handleAction double2.yes double2.ada double2.teacherLink).
Proof.
  apply (handleAction_teacher_needs_confirmation
           pb.Enrollment_UserStatus double2.yes double2.ada
           double2.teacherLink pb.Enrollment_STUDENT).
  vm_compute. tauto.
Defined.

(** X22 on a row: Grace is a teacher. *)
Lemma teacher_row_offers_no_action_witness :
  Forall (fun l => forall confirm,
              MemberView.handleAction confirm double2.grace l
              = [MemberView.refresh])
         (MemberView.renderUserView_links (fun st => st) double2.grace).
Proof.
  apply (teacher_row_offers_no_action
           pb.Enrollment_UserStatus (fun st => st) double2.grace).
  reflexivity.
Defined.

(** X25 on a search: the empty query over the four members. *)
Lemma handleSearch_empty_query_witness :
  MemberView.handleSearch double2.toLowerCase double2.members ""
    (MemberView.mkState [] [] [])
  = MemberView.constructor double2.members.
Proof.
  apply (handleSearch_empty_query
           pb.Enrollment_UserStatus double2.toLowerCase double2.members
           (MemberView.mkState [] [] [])).
  reflexivity.
Defined.

(** X26 on a search: Ada is searched for in upper case. *)
Lemma handleSearch_finds_exact_match_witness :
  (In double2.ada (MemberView.props_acceptedUsers double2.members) ->
   In double2.ada
      (MemberView.acceptedUsers
         (MemberView.handleSearch double2.toLowerCase double2.members
            "ADA LOVELACE" (MemberView.mkState [] [] [])))) /\
  (In double2.ada (MemberView.props_pendingUsers double2.members) ->
   In double2.ada
      (MemberView.pendingUsers
         (MemberView.handleSearch double2.toLowerCase double2.members
            "ADA LOVELACE" (MemberView.mkState [] [] [])))) /\
  (In double2.ada (MemberView.props_rejectedUsers double2.members) ->
   In double2.ada
      (MemberView.rejectedUsers
         (MemberView.handleSearch double2.toLowerCase double2.members
            "ADA LOVELACE" (MemberView.mkState [] [] [])))).
Proof.
  apply (handleSearch_finds_exact_match
           pb.Enrollment_UserStatus double2.toLowerCase double2.members
           (MemberView.mkState [] [] []) "ADA LOVELACE" double2.ada).
  left. reflexivity.
Defined.
